(** * MorphoSource CSV processor: matching and verification engine

    A shallow embedding of [scripts/morphocompare.py] (class
    [MorphoSourceCSVProcessor]) and the properties of its identifier
    builder, spacing extractor, spacing comparator, match selection and
    row loop.

    Python objects are modelled by the type [Py.value]; Python floats are
    the binary64 numbers of [PrimFloat], so that the comparator computes
    on the very numbers the interpreter would.  Strings are sequences of
    code points below 256. *)

From Stdlib Require Import ZArith Floats Bool Ascii String List Lia.
From stdpp Require Import base list strings pretty.

Set Warnings "-inexact-float,-register-all".
Open Scope string_scope.
Open Scope list_scope.
Open Scope Z_scope.

(** ** Python objects and the builtins the script relies on *)

Module Py.

(** Exceptions that the modelled builtins can raise. *)
Inductive exn :=
| TypeError | ValueError | IndexError | KeyError
| OverflowError | ZeroDivisionError.

(** The outcome of an expression that may raise. *)
Inductive result (A : Type) :=
| Ok (a : A)
| Raise (e : exn).
Arguments Ok {A} a.
Arguments Raise {A} e.

Definition bind {A B} (m : result A) (k : A -> result B) : result B :=
  match m with
  | Ok a => k a
  | Raise e => Raise e
  end.

(** JSON documents and table cells: [None], booleans, integers, floats,
    strings, lists and string-keyed dictionaries (an association list whose
    first binding of a key is the one looked up). *)
Inductive value :=
| VNone
| VBool (b : bool)
| VInt (n : Z)
| VFloat (f : float)
| VStr (s : string)
| VList (l : list value)
| VDict (d : list (string * value)).

Definition dict := list (string * value).

(** [d.get(key, default)] *)
Fixpoint dict_get (d : dict) (key : string) (default : value) : value :=
  match d with
  | [] => default
  | (k, v) :: d' => if String.eqb k key then v else dict_get d' key default
  end.

(** [x is None] and [x is not None] *)
Definition is_none (v : value) : bool :=
  match v with
  | VNone => true
  | _ => false
  end.

Definition is_not_none (v : value) : bool := negb (is_none v).

(** Truth value of an object, as tested by [if x:] and [not x]. *)
Definition truthy (v : value) : bool :=
  match v with
  | VNone => false
  | VBool b => b
  | VInt n => negb (n =? 0)
  | VFloat f => negb (PrimFloat.eqb f 0%float)
  | VStr s => negb (String.eqb s "")
  | VList l => match l with [] => false | _ => true end
  | VDict d => match d with [] => false | _ => true end
  end.

(** *** Characters and strings *)

Definition code (c : ascii) : Z := Z.of_N (N_of_ascii c).

Definition chr (n : Z) : ascii := ascii_of_N (Z.to_N n).

Definition in_range (lo hi n : Z) : bool := (lo <=? n) && (n <=? hi).

(** [str.isspace] on one code point below 256. *)
Definition is_space (c : ascii) : bool :=
  let n := code c in
  in_range 9 13 n || in_range 28 32 n || (n =? 133) || (n =? 160).

Fixpoint lstrip (s : string) : string :=
  match s with
  | EmptyString => EmptyString
  | String c s' => if is_space c then lstrip s' else s
  end.

Fixpoint rstrip (s : string) : string :=
  match s with
  | EmptyString => EmptyString
  | String c s' =>
      match rstrip s' with
      | EmptyString => if is_space c then EmptyString else String c EmptyString
      | r => String c r
      end
  end.

(** [s.strip()] *)
Definition strip (s : string) : string := rstrip (lstrip s).

Definition is_digit (c : ascii) : bool := in_range 48 57 (code c).

Definition digit_val (c : ascii) : Z := code c - 48.

Definition to_lower (c : ascii) : ascii :=
  if in_range 65 90 (code c) then chr (code c + 32) else c.

Fixpoint lower (s : string) : string :=
  match s with
  | EmptyString => EmptyString
  | String c s' => String (to_lower c) (lower s')
  end.

Fixpoint repeat_char (c : ascii) (n : nat) : string :=
  match n with
  | O => EmptyString
  | S n' => String c (repeat_char c n')
  end.

Fixpoint contains_char (c : ascii) (s : string) : bool :=
  match s with
  | EmptyString => false
  | String c' s' => Ascii.eqb c c' || contains_char c s'
  end.

(** *** Floats: conversions between numbers and text *)

(** The binary64 number nearest to [num / den] (ties to even), with sign
    [s]; the quotient is cut and rounded the way [SFdiv] does it. *)
Definition round_ratio (s : bool) (num den : positive) : spec_float :=
  let '(q, e, l) := SFdiv_core_binary prec emax (Zpos num) 0 (Zpos den) 0 in
  binary_round_aux prec emax s q e l.

(** The binary64 number nearest to [m * 10 ^ e10]. *)
Definition decimal_to_SF (s : bool) (m e10 : Z) : spec_float :=
  match m with
  | Zpos p =>
      if 0 <=? e10 then round_ratio s (p * Z.to_pos (10 ^ e10)) 1
      else round_ratio s p (Z.to_pos (10 ^ (- e10)))
  | _ => S754_zero s
  end.

(** [float(n)] for an integer: correctly rounded, [OverflowError] beyond
    the largest float. *)
Definition float_of_Z (n : Z) : result float :=
  match binary_normalize prec emax n 0 false with
  | S754_infinity _ => Raise OverflowError
  | r => Ok (SF2Prim r)
  end.

Definition float_of_bool (b : bool) : float := if b then 1%float else 0%float.

(** Leading decimal digits of [s]: their value on top of [acc], how many
    there are on top of [n], and the rest of the string. *)
Fixpoint take_digits (s : string) (acc n : Z) : Z * Z * string :=
  match s with
  | String c s' =>
      if is_digit c then take_digits s' (10 * acc + digit_val c) (n + 1)
      else (acc, n, s)
  | EmptyString => (acc, n, s)
  end.

Definition parse_sign (s : string) : bool * string :=
  match s with
  | String "-" s' => (true, s')
  | String "+" s' => (false, s')
  | _ => (false, s)
  end.

(** What may follow the mantissa: nothing, or [e], an optional sign and at
    least one digit, up to the end of the string. *)
Definition parse_exponent (s : string) : option Z :=
  match s with
  | EmptyString => Some 0
  | String c s' =>
      if Ascii.eqb (to_lower c) "e" then
        let '(neg, s'') := parse_sign s' in
        let '(v, n, rest) := take_digits s'' 0 0 in
        if (0 <? n) && String.eqb rest "" then Some (if neg then - v else v)
        else None
      else None
  end.

Definition parse_decimal (neg : bool) (s : string) : option spec_float :=
  let '(ip, ni, r1) := take_digits s 0 0 in
  let '(m, nf, r2) :=
    match r1 with
    | String "." r => take_digits r ip 0
    | _ => (ip, 0, r1)
    end in
  if ni + nf =? 0 then None
  else match parse_exponent r2 with
       | Some e => Some (decimal_to_SF neg m (e - nf))
       | None => None
       end.

Definition parse_number (s : string) : option spec_float :=
  let '(neg, body) := parse_sign s in
  let l := lower body in
  if String.eqb l "inf" || String.eqb l "infinity" then Some (S754_infinity neg)
  else if String.eqb l "nan" then Some S754_nan
  else parse_decimal neg body.

(** Digit-grouping underscores: allowed only between two digits. *)
Fixpoint drop_underscores (prev : ascii) (s : string) : option string :=
  match s with
  | EmptyString => if Ascii.eqb prev "_" then None else Some EmptyString
  | String c s' =>
      if Ascii.eqb c "_" then
        if is_digit prev then drop_underscores c s' else None
      else if Ascii.eqb prev "_" && negb (is_digit c) then None
      else option_map (String c) (drop_underscores c s')
  end.

Fixpoint is_ascii_str (s : string) : bool :=
  match s with
  | EmptyString => true
  | String c s' => (code c <? 128) && is_ascii_str s'
  end.

(** A string with a code point above 127 has its spaces turned into blanks
    and is cut at its first other character from 127 on. *)
Fixpoint spaces_to_ascii (s : string) : string :=
  match s with
  | EmptyString => EmptyString
  | String c s' =>
      if code c <? 127 then String c (spaces_to_ascii s')
      else if is_space c then String " " (spaces_to_ascii s')
      else String "?" EmptyString
  end.

Definition is_c_space (c : ascii) : bool :=
  in_range 9 13 (code c) || (code c =? 32).

Fixpoint c_lstrip (s : string) : string :=
  match s with
  | EmptyString => EmptyString
  | String c s' => if is_c_space c then c_lstrip s' else s
  end.

Fixpoint c_rstrip (s : string) : string :=
  match s with
  | EmptyString => EmptyString
  | String c s' =>
      match c_rstrip s' with
      | EmptyString => if is_c_space c then EmptyString else String c EmptyString
      | r => String c r
      end
  end.

(** [float(s)] for a string. *)
Definition float_of_str (s : string) : result float :=
  let s1 := if is_ascii_str s then s else spaces_to_ascii s in
  let s2 := c_rstrip (c_lstrip s1) in
  match drop_underscores "000"%char s2 with
  | None => Raise ValueError
  | Some s3 =>
      match parse_number s3 with
      | Some sf => Ok (SF2Prim sf)
      | None => Raise ValueError
      end
  end.

(** [float(x)] *)
Definition py_float (v : value) : result float :=
  match v with
  | VFloat f => Ok f
  | VInt n => float_of_Z n
  | VBool b => Ok (float_of_bool b)
  | VStr s => float_of_str s
  | VNone | VList _ | VDict _ => Raise TypeError
  end.

(** [f - x] for a float [f]: numbers are subtracted, anything else is a
    [TypeError]. *)
Definition float_sub (f : float) (v : value) : result float :=
  match v with
  | VFloat g => Ok (PrimFloat.sub f g)
  | VInt n => bind (float_of_Z n) (fun g => Ok (PrimFloat.sub f g))
  | VBool b => Ok (PrimFloat.sub f (float_of_bool b))
  | VNone | VStr _ | VList _ | VDict _ => Raise TypeError
  end.

(** [a / b] for integers. *)
Definition int_truediv (a b : Z) : result float :=
  match b with
  | 0 => Raise ZeroDivisionError
  | _ =>
      match a with
      | 0 => Ok (if b <? 0 then (-0)%float else 0%float)
      | _ =>
          match round_ratio (xorb (a <? 0) (b <? 0))
                  (Z.to_pos (Z.abs a)) (Z.to_pos (Z.abs b)) with
          | S754_infinity _ => Raise OverflowError
          | r => Ok (SF2Prim r)
          end
      end
  end.

(** *** Text of a float: the shortest decimal that reads back as it *)

Definition SF_eqb (a b : spec_float) : bool :=
  match a, b with
  | S754_nan, S754_nan => true
  | S754_zero s, S754_zero s' => Bool.eqb s s'
  | S754_infinity s, S754_infinity s' => Bool.eqb s s'
  | S754_finite s m e, S754_finite s' m' e' =>
      Bool.eqb s s' && Pos.eqb m m' && (e =? e')
  | _, _ => false
  end.

(** Number of decimal digits of [n]. *)
Fixpoint ndigits10 (fuel : nat) (n : Z) : Z :=
  match fuel with
  | O => 1
  | S fuel' => if n <? 10 then 1 else 1 + ndigits10 fuel' (n / 10)
  end.

(** The least [j] from [j0] on with [den <= num * 10 ^ (j - j0)]. *)
Fixpoint scale_up (fuel : nat) (num den j0 : Z) : Z :=
  match fuel with
  | O => j0
  | S fuel' => if den <=? num then j0 else scale_up fuel' (10 * num) den (j0 + 1)
  end.

(** The integer part of the decimal logarithm of [num / den]. *)
Definition log10_floor (num den : Z) : Z :=
  if den <=? num then ndigits10 (Z.to_nat (Z.log2 num) + 1) (num / den) - 1
  else - scale_up (Z.to_nat (Z.log2 den) + 1) num den 0.

(** The two [n]-digit integers [c] around [num / den / 10 ^ p], nearest
    first, where [p] is such that [num / den] has [n] digits before the
    point once divided by [10 ^ p]. *)
Definition digits_candidates (num den k n : Z) : list Z * Z :=
  let p := k + 1 - n in
  let a := if 0 <=? p then num else num * 10 ^ (- p) in
  let b := if 0 <=? p then den * 10 ^ p else den in
  let lo := a / b in
  let r := a mod b in
  (match 2 * r ?= b with
   | Lt => [lo; lo + 1]
   | Gt => [lo + 1; lo]
   | Eq => if Z.even lo then [lo; lo + 1] else [lo + 1; lo]
   end, p).

Fixpoint shortest_digits (ns : list Z) (m : positive) (e num den k : Z)
  : Z * Z :=
  match ns with
  | [] => (num / den, 0)
  | n :: ns' =>
      let '(cs, p) := digits_candidates num den k n in
      match filter (fun c => SF_eqb (decimal_to_SF false c p)
                               (S754_finite false m e)) cs with
      | c :: _ => (c, p)
      | [] => shortest_digits ns' m e num den k
      end
  end.

Fixpoint drop_zeros (fuel : nat) (c p : Z) : Z * Z :=
  match fuel with
  | O => (c, p)
  | S fuel' =>
      if (c mod 10 =? 0) && negb (c =? 0) then drop_zeros fuel' (c / 10) (p + 1)
      else (c, p)
  end.

Definition zeros (n : Z) : string := repeat_char "0" (Z.to_nat n).

(** Lay out the digits [ds] of a number whose decimal point stands
    [decpt] places after their start. *)
Definition format_repr (ds : string) (decpt : Z) : string :=
  let nd := Z.of_nat (String.length ds) in
  if (decpt <? -3) || (16 <? decpt) then
    let e := decpt - 1 in
    let mant :=
      match ds with
      | String c (String c' r) => String c ("." +:+ String c' r)
      | _ => ds
      end in
    let es := pretty (Z.abs e) in
    mant +:+ "e" +:+ (if e <? 0 then "-" else "+")
         +:+ (if Z.of_nat (String.length es) <? 2 then "0" else "") +:+ es
  else if decpt <=? 0 then "0." +:+ zeros (- decpt) +:+ ds
  else if decpt <? nd then
    substring 0 (Z.to_nat decpt) ds +:+ "."
      +:+ substring (Z.to_nat decpt) (Z.to_nat (nd - decpt)) ds
  else ds +:+ zeros (decpt - nd) +:+ ".0".

(** [repr(f)], which is also [str(f)]. *)
Definition float_repr (f : float) : string :=
  match Prim2SF f with
  | S754_nan => "nan"
  | S754_infinity s => if s then "-inf" else "inf"
  | S754_zero s => if s then "-0.0" else "0.0"
  | S754_finite s m e =>
      let num := if 0 <=? e then Zpos m * 2 ^ e else Zpos m in
      let den := if 0 <=? e then 1 else 2 ^ (- e) in
      let k := log10_floor num den in
      let '(c, p) := shortest_digits (seqZ 1 17) m e num den k in
      let '(c, p) := drop_zeros 17 c p in
      let ds := pretty c in
      (if s then "-" else "")
        +:+ format_repr ds (p + Z.of_nat (String.length ds))
  end.

(** *** [repr] and [str] of objects *)

Definition quote : ascii := chr 39.
Definition dquote : ascii := chr 34.
Definition backslash : ascii := chr 92.

Definition is_printable (c : ascii) : bool :=
  let n := code c in
  negb (in_range 0 31 n || in_range 127 160 n || (n =? 173)).

Definition hex_digit (n : Z) : ascii :=
  if n <? 10 then chr (48 + n) else chr (87 + n).

Definition escape_char (q c : ascii) : string :=
  if Ascii.eqb c q || Ascii.eqb c backslash then String backslash (String c "")
  else if code c =? 9 then String backslash "t"
  else if code c =? 10 then String backslash "n"
  else if code c =? 13 then String backslash "r"
  else if is_printable c then String c ""
  else String backslash
         (String "x" (String (hex_digit (code c / 16))
                        (String (hex_digit (code c mod 16)) ""))).

Fixpoint escape (q : ascii) (s : string) : string :=
  match s with
  | EmptyString => EmptyString
  | String c s' => escape_char q c +:+ escape q s'
  end.

Definition str_repr (s : string) : string :=
  let q := if contains_char quote s && negb (contains_char dquote s)
           then dquote else quote in
  String q (escape q s +:+ String q "").

Fixpoint py_repr (v : value) : string :=
  match v with
  | VNone => "None"
  | VBool b => if b then "True" else "False"
  | VInt n => pretty n
  | VFloat f => float_repr f
  | VStr s => str_repr s
  | VList l => "[" +:+ String.concat ", " (map py_repr l) +:+ "]"
  | VDict d =>
      "{" +:+ String.concat ", "
                (map (fun kv => str_repr (fst kv) +:+ ": " +:+ py_repr (snd kv)) d)
          +:+ "}"
  end.

(** [str(x)] *)
Definition py_str (v : value) : string :=
  match v with
  | VStr s => s
  | _ => py_repr v
  end.

(** [x[0]] *)
Definition getitem0 (v : value) : result value :=
  match v with
  | VList (x :: _) => Ok x
  | VList [] => Raise IndexError
  | VStr (String c _) => Ok (VStr (String c ""))
  | VStr EmptyString => Raise IndexError
  | VDict _ => Raise KeyError
  | VNone | VBool _ | VInt _ | VFloat _ => Raise TypeError
  end.

End Py.

Import Py.

Notation "x <- m ;; k" := (Py.bind m (fun x => k))
  (at level 100, m at next level, right associativity, only parsing).

(** ** Rows and the object store *)

(** A row of the table (a pandas [Series]): labelled cells, in column
    order. *)
Definition row := list (string * value).

(** [row.get(key, default)] *)
Definition row_get (r : row) (key : string) (default : value) : value :=
  dict_get r key default.

(** [row[key] = v] on the cells: an existing cell is overwritten where it
    stands, a new one is added after the last. *)
Fixpoint row_set (r : row) (key : string) (v : value) : row :=
  match r with
  | [] => [(key, v)]
  | (k, x) :: r' =>
      if String.eqb k key then (k, v) :: r' else (k, x) :: row_set r' key v
  end.

(** Rows are objects: the store holds their cells, a reference is an
    index into it.  Assigning to a cell changes the object in the store,
    and every name bound to that object sees the change. *)
Abbreviation heap := (list row).
Abbreviation ref := nat.

Definition deref (h : heap) (r : ref) : row := default [] (h !! r).

(** [row.copy()]: a new object with the same cells. *)
Definition copy (h : heap) (r : ref) : heap * ref :=
  (h ++ [deref h r], length h).

(** [obj[key] = v] *)
Definition setitem (h : heap) (r : ref) (key : string) (v : value) : heap :=
  alter (fun cells => row_set cells key v) r h.

(** ** The processor *)

(** *** [construct_specimen_id] (lines 26-41) *)

Definition nonempty (s : string) : bool := negb (String.eqb s "").

Definition construct_specimen_id (r : row) : option string :=
  let institution := strip (py_str (row_get r "institution_code" (VStr ""))) in
  let collection := strip (py_str (row_get r "collection_code" (VStr ""))) in
  let catalog := strip (py_str (row_get r "catalog_number" (VStr ""))) in
  if negb (forallb nonempty [institution; collection; catalog])
     || existsb (fun x => existsb (String.eqb x) ["nan"; "None"])
          [institution; collection; catalog]
  then None
  else Some (institution +:+ ":" +:+ collection +:+ ":" +:+ catalog).

(** *** [extract_voxel_spacing] (lines 108-126) *)

Definition get_first_value (field_data : value) : value :=
  match field_data with
  | VList l => match l with x :: _ => x | [] => VNone end
  | _ => field_data
  end.

(** One line of the conversion block: [if v: v = float(v)]. *)
Definition convert_if_set (v : value) : result value :=
  if truthy v then f <- py_float v ;; Ok (VFloat f) else Ok v.

(** The three conversions run in one [try] whose handler does nothing: the
    first one that raises ends the block, and the values assigned so far
    stay. *)
Definition extract_voxel_spacing (media_item : dict) : value * value * value :=
  let x_spacing := get_first_value (dict_get media_item "x_pixel_spacing" VNone) in
  let y_spacing := get_first_value (dict_get media_item "y_pixel_spacing" VNone) in
  let z_spacing := get_first_value (dict_get media_item "z_pixel_spacing" VNone) in
  match convert_if_set x_spacing with
  | Raise _ => (x_spacing, y_spacing, z_spacing)
  | Ok x_float =>
      match convert_if_set y_spacing with
      | Raise _ => (x_float, y_spacing, z_spacing)
      | Ok y_float =>
          match convert_if_set z_spacing with
          | Raise _ => (x_float, y_float, z_spacing)
          | Ok z_float => (x_float, y_float, z_float)
          end
      end
  end.

(** *** [compare_voxel_spacing] (lines 128-146) *)

Definition default_tolerance : float := 0.0001%float.

(** [float(v) if v is not None and str(v).strip() != '' else None] *)
Definition csv_float (v : value) : result (option float) :=
  if is_not_none v && nonempty (strip (py_str v))
  then f <- py_float v ;; Ok (Some f)
  else Ok None.

(** [abs(c - a) <= tolerance] *)
Definition axis_match (c : float) (a : value) (tolerance : float) : result bool :=
  d <- float_sub c a ;; Ok (PrimFloat.leb (PrimFloat.abs d) tolerance).

(** The body of the [try]. *)
Definition compare_body (csv_x csv_y csv_z api_x api_y api_z : value)
    (tolerance : float) : result bool :=
  csv_x_float <- csv_float csv_x ;;
  csv_y_float <- csv_float csv_y ;;
  csv_z_float <- csv_float csv_z ;;
  match csv_x_float, csv_y_float, csv_z_float with
  | Some fx, Some fy, Some fz =>
      if existsb is_none [api_x; api_y; api_z] then Ok false
      else
        x_match <- axis_match fx api_x tolerance ;;
        y_match <- axis_match fy api_y tolerance ;;
        z_match <- axis_match fz api_z tolerance ;;
        Ok (x_match && y_match && z_match)
  | _, _, _ => Ok false
  end.

(** Any exception in the body is caught and answered by [False]. *)
Definition compare_voxel_spacing (csv_x csv_y csv_z api_x api_y api_z : value)
    (tolerance : float) : bool :=
  match compare_body csv_x csv_y csv_z api_x api_y api_z tolerance with
  | Ok b => b
  | Raise _ => false
  end.

(** *** Match selection (lines 223-299 of [process_csv]) *)

(** An entry of [available_scans]. *)
Record scan := {
  media_id : string;
  api_x : value;
  api_y : value;
  api_z : value
}.

(** The three texts that [best_match_info['match_status']] can hold. *)
Inductive info_status :=
| Verified
| AvailableButNoSpacingMatch
| FoundButNoVoxelData.

Definition is_verified (s : info_status) : bool :=
  match s with
  | Verified => true
  | _ => false
  end.

(** [best_match_info] *)
Record match_info := {
  best : scan;
  match_status : info_status
}.

(** [media_id = media_item.get('id')], then its first element when it is a
    list, [None] when that list is empty. *)
Definition item_media_id (media_item : dict) : value :=
  let media_id := dict_get media_item "id" VNone in
  match media_id with
  | VList l => match l with x :: _ => x | [] => VNone end
  | _ => media_id
  end.

(** [str(media_id) if media_id else ''] *)
Definition media_id_text (media_id : value) : string :=
  if truthy media_id then py_str media_id else "".

Definition all_not_none (vals : list value) : bool := forallb is_not_none vals.

(** The first loop (lines 227-250): stop at the first item whose spacing
    compares equal to the row's.  Returns [best_match] and
    [best_match_info]. *)
Fixpoint find_best_match (csv_x csv_y csv_z : value) (media_items : list dict)
  : option (dict * match_info) :=
  match media_items with
  | [] => None
  | media_item :: rest =>
      let media_id := item_media_id media_item in
      let '(ax, ay, az) := extract_voxel_spacing media_item in
      if all_not_none [ax; ay; az; csv_x; csv_y; csv_z]
         && compare_voxel_spacing csv_x csv_y csv_z ax ay az default_tolerance
      then Some (media_item,
                 {| best := {| media_id := media_id_text media_id;
                               api_x := ax; api_y := ay; api_z := az |};
                    match_status := Verified |})
      else find_best_match csv_x csv_y csv_z rest
  end.

(** The second loop (lines 255-275): an entry for every item that has
    its three spacings, and one without spacing for every other item that
    has an id. *)
Fixpoint available_scans (media_items : list dict) : list scan :=
  match media_items with
  | [] => []
  | media_item :: rest =>
      let media_id := item_media_id media_item in
      let '(ax, ay, az) := extract_voxel_spacing media_item in
      if all_not_none [ax; ay; az] then
        {| media_id := media_id_text media_id;
           api_x := ax; api_y := ay; api_z := az |} :: available_scans rest
      else if truthy media_id then
        {| media_id := py_str media_id;
           api_x := VNone; api_y := VNone; api_z := VNone |}
          :: available_scans rest
      else available_scans rest
  end.

(** [str(media_items[0].get('id', [''])[0]) if media_items else ''] *)
Definition first_item_id (media_items : list dict) : result string :=
  match media_items with
  | [] => Ok ""
  | first :: _ =>
      v <- getitem0 (dict_get first "id" (VList [VStr ""])) ;;
      Ok (py_str v)
  end.

(** [not best_match], on [None] or a dictionary. *)
Definition no_best_match (best_match : option dict) : bool :=
  match best_match with
  | None => true
  | Some d => negb (truthy (VDict d))
  end.

(** From [best_match = None] to the end of [if not best_match:]
    (lines 224-299). *)
Definition select_match_info (csv_x csv_y csv_z : value)
    (media_items : list dict) : result (option match_info) :=
  let found := find_best_match csv_x csv_y csv_z media_items in
  let best_match := option_map fst found in
  let best_match_info := option_map snd found in
  if no_best_match best_match then
    match available_scans media_items with
    | first_scan :: _ =>
        Ok (Some {| best := first_scan;
                    match_status := AvailableButNoSpacingMatch |})
    | [] =>
        id0 <- first_item_id media_items ;;
        Ok (Some {| best := {| media_id := id0; api_x := VNone;
                               api_y := VNone; api_z := VNone |};
                    match_status := FoundButNoVoxelData |})
    end
  else Ok best_match_info.

(** The seven result columns, in the order they are assigned. *)
Definition result_columns : list string :=
  ["constructed_specimen_id"; "morphosource_status"; "matched_media_id";
   "match_status"; "api_x_spacing"; "api_y_spacing"; "api_z_spacing"].

(** The six assignments that follow [constructed_specimen_id]. *)
Definition set_outcome (h : heap) (result_row : ref)
    (morphosource_status matched_media_id status sx sy sz : string) : heap :=
  let h := setitem h result_row "morphosource_status" (VStr morphosource_status) in
  let h := setitem h result_row "matched_media_id" (VStr matched_media_id) in
  let h := setitem h result_row "match_status" (VStr status) in
  let h := setitem h result_row "api_x_spacing" (VStr sx) in
  let h := setitem h result_row "api_y_spacing" (VStr sy) in
  setitem h result_row "api_z_spacing" (VStr sz).

(** [str(v) if v is not None else ''] *)
Definition spacing_text (v : value) : string :=
  if is_not_none v then py_str v else "".

(** The text of [match_status] for a row found in the catalog. *)
Definition found_status (info : match_info) : string :=
  if is_verified (match_status info) then "Yes"
  else if is_not_none (api_x (best info)) then "Mismatch"
  else "Missing Data".

(** "Set result fields" (lines 302-325):
    [if best_match_info: ... else: ...] *)
Definition set_result_fields (h : heap) (result_row : ref)
    (best_match_info : option match_info) : heap :=
  match best_match_info with
  | Some info =>
      set_outcome h result_row "Found" (media_id (best info)) (found_status info)
        (spacing_text (api_x (best info)))
        (spacing_text (api_y (best info)))
        (spacing_text (api_z (best info)))
  | None => set_outcome h result_row "Found" "" "Missing Data" "" "" ""
  end.

(** [specimen_id] as the object it is: [None] or a string. *)
Definition id_value (specimen_id : option string) : value :=
  match specimen_id with
  | Some s => VStr s
  | None => VNone
  end.

(** State of the loop: the store, the list [results] and the counters. *)
Record state := {
  objects : heap;
  results : list ref;
  processed : Z;
  matched : Z;
  verified : Z
}.

(** *** The table and the summary *)

(** The loaded table (a pandas [DataFrame]): its header and its rows. *)
Record table := {
  columns : list string;
  rows : list row
}.

Definition required_columns : list string :=
  ["institution_code"; "collection_code"; "catalog_number";
   "Voxel_x_spacing"; "Voxel_y_spacing"; "Voxel_z_spacing"].

(** [[col for col in required_columns if col not in df.columns]] *)
Definition missing_columns (df : table) : list string :=
  filter (fun col => negb (existsb (String.eqb col) (columns df)))
    required_columns.

(** The lines of the summary that carry numbers. *)
Inductive report_line :=
| TotalRows (n : Z)
| SpecimensSearched (n : Z)
| FoundInMorphoSource (n : Z)
| ExactMatches (n : Z)
| SearchSuccessRate (percent : float)
| VerificationSuccessRate (percent : float).

(** [a/b*100] *)
Definition percentage (a b : Z) : result float :=
  q <- int_truediv a b ;; Ok (PrimFloat.mul q 100%float).

(** "Print summary" (lines 354-362): the four counts, then each rate
    under its guard. *)
Definition print_summary (total processed matched verified : Z)
  : result (list report_line) :=
  let out := [TotalRows total; SpecimensSearched processed;
              FoundInMorphoSource matched; ExactMatches verified] in
  out <- (if 0 <? processed
          then p <- percentage matched processed ;;
               Ok (out ++ [SearchSuccessRate p])
          else Ok out) ;;
  out <- (if 0 <? matched
          then p <- percentage verified matched ;;
               Ok (out ++ [VerificationSuccessRate p])
          else Ok out) ;;
  Ok out.

(** What a completed run leaves: the annotated table and the summary. *)
Record run := {
  results_df : list row;
  summary : list report_line
}.

Section Processor.

(** The catalogue is outside the program: [search_morphosource n id] is the
    list of exact matches that the [n+1]-th query of the run, made for
    [id], comes back with (empty when the query fails). *)
Variable search_morphosource : Z -> string -> list dict.

(** One turn of [for idx, row in df.iterrows()] (lines 177-334).  What
    the loop prints, its pause between queries and the [debug] flag, which
    only adds printing, are left out. *)
Definition process_row (st : state) (row : ref) : result state :=
  let '(h, result_row) := copy (objects st) row in
  let specimen_id := construct_specimen_id (deref h row) in
  let h := setitem h result_row "constructed_specimen_id" (id_value specimen_id) in
  if negb (truthy (id_value specimen_id)) then
    Ok {| objects := set_outcome h result_row "No Specimen ID" "" "No" "" "" "";
          results := results st ++ [result_row];
          processed := processed st;
          matched := matched st;
          verified := verified st |}
  else
    let media_items :=
      search_morphosource (processed st) (py_str (id_value specimen_id)) in
    let processed' := processed st + 1 in
    match media_items with
    | [] =>
        Ok {| objects := set_outcome h result_row "Not Found" "" "No" "" "" "";
              results := results st ++ [result_row];
              processed := processed';
              matched := matched st;
              verified := verified st |}
    | _ :: _ =>
        let matched' := matched st + 1 in
        let csv_x := row_get (deref h row) "Voxel_x_spacing" VNone in
        let csv_y := row_get (deref h row) "Voxel_y_spacing" VNone in
        let csv_z := row_get (deref h row) "Voxel_z_spacing" VNone in
        best_match_info <- select_match_info csv_x csv_y csv_z media_items ;;
        let h := set_result_fields h result_row best_match_info in
        let verified' :=
          match best_match_info with
          | Some info =>
              if is_verified (match_status info) then verified st + 1
              else verified st
          | None => verified st
          end in
        Ok {| objects := h;
              results := results st ++ [result_row];
              processed := processed';
              matched := matched';
              verified := verified' |}
    end.

(** The loop over the rows. *)
Fixpoint process_rows (st : state) (rows : list ref) : result state :=
  match rows with
  | [] => Ok st
  | row :: rest => st' <- process_row st row ;; process_rows st' rest
  end.

(** The store at the start of the loop holds the rows of the table, row
    [i] at reference [i]. *)
Definition initial_state (df : table) : state :=
  {| objects := rows df; results := [];
     processed := 0; matched := 0; verified := 0 |}.

Definition row_refs (df : table) : list ref := seq 0 (length (rows df)).

(** [process_csv], from the loaded table on.  [Ok None] is the early
    [return None] on missing columns; [Raise] is an exception that leaves
    the function. *)
Definition process_csv (df : table) : result (option run) :=
  match missing_columns df with
  | _ :: _ => Ok None
  | [] =>
      st <- process_rows (initial_state df) (row_refs df) ;;
      out <- print_summary (Z.of_nat (length (rows df)))
               (processed st) (matched st) (verified st) ;;
      Ok (Some {| results_df := map (deref (objects st)) (results st);
                  summary := out |})
  end.

End Processor.

(** ** Notions used in the statements *)

(** A string has a character that is not white space. *)
Fixpoint has_nonspace (s : string) : bool :=
  match s with
  | EmptyString => false
  | String c s' => negb (is_space c) || has_nonspace s'
  end.

(** *** Identifier builder *)

(** A component of the identifier, as the builder trims it. *)
Definition trimmed (r : row) (key : string) : string :=
  strip (py_str (row_get r key (VStr ""))).

(** The specification's reading of a missing value: the sentinels
    compared without regard to case. *)
Definition is_missing_sentinel (s : string) : bool :=
  existsb (String.eqb (lower s)) ["nan"; "none"].

(** What the builder itself rejects: the empty string and the two texts
    it lists. *)
Definition unusable (x : string) : bool :=
  String.eqb x "" || String.eqb x "nan" || String.eqb x "None".

Definition claimed_no_identifier (r : row) : bool :=
  existsb (fun x => String.eqb x "" || is_missing_sentinel x)
    [trimmed r "institution_code"; trimmed r "collection_code";
     trimmed r "catalog_number"].

(** *** Spacing extractor *)

(** The three values before the conversion block. *)
Definition raw_spacing (media_item : dict) : value * value * value :=
  (get_first_value (dict_get media_item "x_pixel_spacing" VNone),
   get_first_value (dict_get media_item "y_pixel_spacing" VNone),
   get_first_value (dict_get media_item "z_pixel_spacing" VNone)).




(** *** Spacing comparator *)

(** A remote value that is a float or absent. *)
Definition remote (o : option float) : value :=
  match o with
  | Some f => VFloat f
  | None => VNone
  end.

(** A local value that is neither [None] nor blank. *)
Definition present (v : value) : Prop :=
  v <> VNone /\ strip (py_str v) <> "".

(** [|c - a| <= t] on floats. *)
Definition within (c a t : float) : bool :=
  PrimFloat.leb (PrimFloat.abs (PrimFloat.sub c a)) t.

Definition triple : Type := float * float * float.

(** The comparator on two triples of floats. *)
Definition compare (a b : triple) (tolerance : float) : bool :=
  let '(a1, a2, a3) := a in
  let '(b1, b2, b3) := b in
  compare_voxel_spacing (VFloat a1) (VFloat a2) (VFloat a3)
    (VFloat b1) (VFloat b2) (VFloat b3) tolerance.

(** *** Match selection *)

(** The test of the second loop: none of the three spacings is [None]. *)
Definition has_full_spacing (media_item : dict) : bool :=
  let '(ax, ay, az) := extract_voxel_spacing media_item in
  all_not_none [ax; ay; az].

Definition has_id (media_item : dict) : bool :=
  truthy (item_media_id media_item).

(** The test of the first loop. *)
Definition verifies (csv_x csv_y csv_z : value) (media_item : dict) : bool :=
  let '(ax, ay, az) := extract_voxel_spacing media_item in
  all_not_none [ax; ay; az; csv_x; csv_y; csv_z]
  && compare_voxel_spacing csv_x csv_y csv_z ax ay az default_tolerance.

(** The entry of [available_scans] for an item with its three spacings. *)
Definition scan_of (media_item : dict) : scan :=
  let '(ax, ay, az) := extract_voxel_spacing media_item in
  {| media_id := media_id_text (item_media_id media_item);
     api_x := ax; api_y := ay; api_z := az |}.

(** The entry for an item that has an id but not its three spacings. *)
Definition id_only_scan (media_item : dict) : scan :=
  {| media_id := py_str (item_media_id media_item);
     api_x := VNone; api_y := VNone; api_z := VNone |}.

Definition scan_spacing (s : scan) : value * value * value :=
  (api_x s, api_y s, api_z s).

(** A value that is neither a number nor [None]. *)
Definition non_numeric (v : value) : bool :=
  match v with
  | VStr _ | VList _ | VDict _ => true
  | _ => false
  end.

Definition some_axis_non_numeric (media_item : dict) : bool :=
  let '(ax, ay, az) := extract_voxel_spacing media_item in
  non_numeric ax || non_numeric ay || non_numeric az.

(** *** Row loop *)

(** The cells after a series of assignments. *)
Definition assign (cells : row) (kvs : list (string * value)) : row :=
  fold_left (fun r kv => row_set r (fst kv) (snd kv)) kvs cells.

(** ** Sample rows and catalogue records *)

Definition id_row (institution collection catalog : value) : row :=
  [("institution_code", institution); ("collection_code", collection);
   ("catalog_number", catalog)].

Definition row_mvz : row :=
  [("institution_code", VStr "MVZ"); ("collection_code", VStr "Mammals");
   ("catalog_number", VInt 12345);
   ("Voxel_x_spacing", VFloat 0.05); ("Voxel_y_spacing", VFloat 0.05);
   ("Voxel_z_spacing", VFloat 0.05); ("note", VStr "keep")].


Definition table_of (r : row) : table :=
  {| columns := map fst r; rows := [r] |}.

(** Each of the three local spacings of [row_mvz]. *)
Definition csv : value := VFloat 0.05.

Definition media (id x y z : value) : dict :=
  [("physical_object_title", VList [VStr "MVZ:Mammals:12345"]);
   ("id", id); ("x_pixel_spacing", x); ("y_pixel_spacing", y);
   ("z_pixel_spacing", z)].

(** A record with neither id nor spacing. *)
Definition item_plain : dict :=
  [("physical_object_title", VList [VStr "MVZ:Mammals:12345"])].

(** A record with an id and no spacing. *)
Definition item_id_only : dict :=
  [("physical_object_title", VList [VStr "MVZ:Mammals:12345"]);
   ("id", VList [VStr "000011111"])].

(** A record whose id is the empty list. *)
Definition item_empty_id : dict :=
  [("physical_object_title", VList [VStr "MVZ:Mammals:12345"]);
   ("id", VList [])].

(** A record whose spacing differs from the local one. *)
Definition item_full : dict :=
  media (VList [VStr "000022222"]) (VList [VStr "0.5"]) (VList [VStr "0.5"])
    (VList [VStr "0.5"]).

(** A record whose spacing equals the local one. *)
Definition item_match : dict :=
  media (VList [VStr "000033333"]) (VList [VStr "0.05"]) (VList [VStr "0.05"])
    (VList [VStr "0.05"]).

(** Records with text that is not a number on one axis. *)
Definition item_bad_x : dict :=
  media (VStr "000012345") (VList [VStr "abc"]) (VList [VStr "0.05"])
    (VList [VStr "0.05"]).


(** A row whose institution cell is missing (a NaN in the table). *)
Definition row_no_institution : row :=
  row_set row_mvz "institution_code" (VFloat nan).

(** The output row for [r] with the given result values. *)
Definition annotated (r : row) (id : value)
    (status media status' sx sy sz : string) : row :=
  r ++ combine result_columns
         [id; VStr status; VStr media; VStr status'; VStr sx; VStr sy; VStr sz].

(** A catalogue that answers every query with the same records. *)
Definition catalog_of (items : list dict) : Z -> string -> list dict :=
  fun _ _ => items.

(** The state in which the loop over a table ends, when it ends. *)
Definition state_after (search : Z -> string -> list dict) (df : table)
  : state :=
  match process_rows search (initial_state df) (row_refs df) with
  | Ok st => st
  | Raise _ => initial_state df
  end.


Definition sample_state : state :=
  state_after (catalog_of [item_match]) (table_of row_mvz).

(** ** [search_morphosource] (lines 43-106) *)

(** Sequencing of steps that raise, when what is raised does not matter:
    [None] is an exception. *)
Notation "x <-? m ;; k" :=
  (match m with Some x => k | None => None end)
  (at level 100, m at next level, right associativity, only parsing).

(** [s.upper()], as the code points of the result: three letters below 256
    have their capital above 255, and the sharp s becomes two letters. *)
Definition upper_char (c : ascii) : list Z :=
  let n := code c in
  if in_range 97 122 n then [n - 32]
  else if n =? 181 then [924]
  else if n =? 223 then [83; 83]
  else if n =? 255 then [376]
  else if in_range 224 254 n && negb (n =? 247) then [n - 32]
  else [n].

Fixpoint upper (s : string) : list Z :=
  match s with
  | EmptyString => []
  | String c s' => upper_char c ++ upper s'
  end.

(** [p in s] for two strings. *)
Fixpoint is_substring (p s : string) : bool :=
  String.prefix p s
  || match s with
     | EmptyString => false
     | String _ s' => is_substring p s'
     end.

(** [key in container]; [None] is the [TypeError] of a container that is
    not one. *)
Definition py_contains (key : string) (container : value) : option bool :=
  match container with
  | VDict d => Some (existsb (fun kv => String.eqb (fst kv) key) d)
  | VList l =>
      Some (existsb (fun v => match v with
                              | VStr s => String.eqb s key
                              | _ => false
                              end) l)
  | VStr s => Some (is_substring key s)
  | VNone | VBool _ | VInt _ | VFloat _ => None
  end.

(** [container[key]] for a text key; [None] is the exception of an object
    that is not a dictionary, or of a key that is not there. *)
Definition py_getitem (container : value) (key : string) : option value :=
  match container with
  | VDict d =>
      if existsb (fun kv => String.eqb (fst kv) key) d
      then Some (dict_get d key VNone)
      else None
  | _ => None
  end.

Definition is_list (v : value) : bool :=
  match v with
  | VList _ => true
  | _ => false
  end.

(** "Extract media items": the list under [response.media], or
    [response] itself when it is a list.  [Some None] is the early
    [return []], [None] an exception. *)
Definition find_media_items (data : value) : option (option value) :=
  has_response <-? py_contains "response" data ;;
  if has_response then
    response <-? py_getitem data "response" ;;
    has_media <-? py_contains "media" response ;;
    if has_media then
      media_items <-? py_getitem response "media" ;; Some (Some media_items)
    else if is_list response then Some (Some response)
    else Some None
  else Some None.

(** The title of an item: [item.get('physical_object_title', '')], then
    its first element when it is a list, [''] when that list is empty. *)
Definition object_title_of (item : dict) : value :=
  let object_title := dict_get item "physical_object_title" (VStr "") in
  match object_title with
  | VList l => match l with x :: _ => x | [] => VStr "" end
  | _ => object_title
  end.

(** The test of the filter on one item:
    [object_title.strip().upper() == specimen_id.upper()].  [None] is the
    [AttributeError] of an item without [get] or of a title without
    [strip]. *)
Definition title_matches (item : value) (specimen_id : string) : option bool :=
  match item with
  | VDict d =>
      match object_title_of d with
      | VStr t => Some (bool_decide (upper (strip t) = upper specimen_id))
      | _ => None
      end
  | _ => None
  end.

(** "Filter for exact matches": the loop over [media_items]. *)
Fixpoint exact_matches (media_items : list value) (specimen_id : string)
  : option (list dict) :=
  match media_items with
  | [] => Some []
  | item :: rest =>
      same <-? title_matches item specimen_id ;;
      matches <-? exact_matches rest specimen_id ;;
      Some (match item with
            | VDict d => if same then d :: matches else matches
            | _ => matches
            end)
  end.

(** What [requests.get] hands back: a status and a body that decodes as
    JSON or does not. *)
Record http_response := {
  status_code : Z;
  json : option value
}.

(** The body of the [try], from the response on.  [debug_ok] tells whether
    the debug step of the call (lines 59-63, the dump of the answer to a
    file, made by the first calls of a run) completes; it is [true] for a
    call that has none.  What the function prints is left out. *)
Definition search_body (debug_ok : bool) (response : http_response)
    (specimen_id : string) : option (list dict) :=
  if status_code response =? 200 then
    data <-? json response ;;
    if negb debug_ok then None
    else
      found <-? find_media_items data ;;
      match found with
      | None => Some []
      | Some media_items =>
          if truthy media_items then
            match media_items with
            | VList l => exact_matches l specimen_id
            | _ => None
            end
          else Some []
      end
  else Some [].

(** [search_morphosource], given what the request comes back with ([None]
    when it raises): any exception is answered by the empty list. *)
Definition search_response (debug_ok : bool) (answer : option http_response)
    (specimen_id : string) : list dict :=
  default []
    (response <-? answer ;; search_body debug_ok response specimen_id).

(** The catalogue seen by the row loop, over a transport that answers the
    [n+1]-th request of the run. *)
Definition catalog_search (debug_ok : Z -> string -> bool)
    (transport : Z -> string -> option http_response)
  : Z -> string -> list dict :=
  fun n specimen_id =>
    search_response (debug_ok n specimen_id) (transport n specimen_id)
      specimen_id.

(** ** [main] (lines 374-403) and the whole of [process_csv] *)

Section Main.

Variable search_morphosource : Z -> string -> list dict.

(** The file system and the reader of tables are outside the program:
    [path_exists] is [os.path.exists]; [read_csv f] is the table that
    [pd.read_csv] makes of the file, [None] when it raises; and
    [save_results f t] tells whether the table [t] gets written to the
    output file made for the input [f], directory included
    (lines 340-346). *)
Variable path_exists : string -> bool.
Variable read_csv : string -> option table.
Variable save_results : string -> list row -> bool.

(** [process_csv] from its first line to its last.  [Some None] is a
    [return None], and [None] an exception that leaves the function: one of
    the loop, or one of the writing of the output file. *)
Definition process_csv_file (csv_filename : string) : option (option run) :=
  match read_csv csv_filename with
  | None => Some None
  | Some df =>
      match process_csv search_morphosource df with
      | Raise _ => None
      | Ok None => Some None
      | Ok (Some r) =>
          if save_results csv_filename (results_df r) then Some (Some r)
          else None
      end
  end.

(** [not api_key], on [None] or a string. *)
Definition no_api_key (api_key : option string) : bool :=
  match api_key with
  | None => true
  | Some k => String.eqb k ""
  end.

(** [main], on [sys.argv] and the value of [MORPHOSOURCE_API_KEY]; the
    result is the argument of [sys.exit], [None] when an exception leaves
    [main]. *)
Definition main (argv : list string) (api_key : option string) : option Z :=
  match argv with
  | [_; csv_filename] =>
      if negb (path_exists csv_filename) then Some 1
      else if no_api_key api_key then Some 1
      else
        results <-? process_csv_file csv_filename ;;
        match results with
        | Some _ => Some 0
        | None => Some 1
        end
  | _ => Some 1
  end.

End Main.

(** The exit status of the process: that of [sys.exit], or 1 when an
    exception ends the interpreter. *)
Definition exit_status (r : option Z) : Z := default 1 r.

(** ** More notions used in the statements *)

(** A float that is neither a NaN nor an infinity. *)
Definition finite (f : float) : bool :=
  match Prim2SF f with
  | S754_zero _ | S754_finite _ _ _ => true
  | S754_infinity _ | S754_nan => false
  end.

Definition is_nan_float (v : value) : bool :=
  match v with
  | VFloat f => match Prim2SF f with S754_nan => true | _ => false end
  | _ => false
  end.

(** The cell [col] of a row holds the text [text]. *)
Definition cell_is (col text : string) (r : row) : bool :=
  match row_get r col VNone with
  | VStr s => String.eqb s text
  | _ => false
  end.

(** How many rows of a table satisfy a test. *)
Definition count_rows (p : row -> bool) (t : list row) : Z :=
  Z.of_nat (length (List.filter p t)).



(** Sample answers of the catalogue. *)
Definition item_other_title : dict :=
  [("physical_object_title", VList [VStr "MVZ:Mammals:99999"]);
   ("id", VList [VStr "000044444"])].

Definition item_lower_title : dict :=
  [("physical_object_title", VStr "  mvz:mammals:12345 ");
   ("id", VStr "000055555")].

Definition answer_of (items : list value) : http_response :=
  {| status_code := 200;
     json := Some (VDict [("response", VDict [("media", VList items)])]) |}.

(** The three spacings of an entry are there, or none is. *)
Definition all_known (s : scan) : bool :=
  all_not_none [api_x s; api_y s; api_z s].

Definition all_absent (s : scan) : bool :=
  forallb is_none [api_x s; api_y s; api_z s].

(** The values that a turn of the loop gives to the seven result columns,
    by the way it went: no identifier, nothing found, or a selection. *)
Definition no_identifier_values : list value :=
  [VNone; VStr "No Specimen ID"; VStr ""; VStr "No"; VStr ""; VStr "";
   VStr ""].

Definition not_found_values (sid : string) : list value :=
  [VStr sid; VStr "Not Found"; VStr ""; VStr "No"; VStr ""; VStr "";
   VStr ""].

Definition found_values (sid : string) (info : match_info) : list value :=
  [VStr sid; VStr "Found"; VStr (media_id (best info));
   VStr (found_status info);
   VStr (spacing_text (api_x (best info)));
   VStr (spacing_text (api_y (best info)));
   VStr (spacing_text (api_z (best info)))].

(** The output row made of the cells of a row and of seven values. *)
Definition output_row (cells : row) (vals : list value) : row :=
  assign cells (combine result_columns vals).

(** The output table of a state. *)
Definition output_table (st : state) : list row :=
  map (deref (objects st)) (results st).

(** The selection made for a row, with its local spacings as the loop
    reads them. *)
Definition select_for (cells : row) (media_items : list dict)
  : result (option match_info) :=
  select_match_info (row_get cells "Voxel_x_spacing" VNone)
    (row_get cells "Voxel_y_spacing" VNone)
    (row_get cells "Voxel_z_spacing" VNone) media_items.

(** The three ways through a turn of the loop that completes, for the
    cells of the row and the number [n] of queries made before it: the
    values written in the seven result columns, and what is added to
    [processed], [matched] and [verified]. *)
Inductive outcome (search : Z -> string -> list dict) (n : Z) (cells : row)
  : list value -> Z -> Z -> Z -> Prop :=
| NoIdentifier :
    construct_specimen_id cells = None ->
    outcome search n cells no_identifier_values 0 0 0
| NotFound (sid : string) :
    construct_specimen_id cells = Some sid ->
    search n sid = [] ->
    outcome search n cells (not_found_values sid) 1 0 0
| Found (sid : string) (info : match_info) :
    construct_specimen_id cells = Some sid ->
    search n sid <> [] ->
    select_for cells (search n sid) = Ok (Some info) ->
    outcome search n cells (found_values sid info) 1 1
      (if is_verified (match_status info) then 1 else 0).

(** The state of the loop is well formed: [results] holds references to
    objects of the store. *)
Definition results_in_store (st : state) : Prop :=
  Forall (fun r : ref => (r < length (objects st))%nat) (results st).

(** The tests on output rows that the three counters go with. *)
Definition was_searched (r : row) : bool :=
  negb (cell_is "morphosource_status" "No Specimen ID" r).

Definition was_found (r : row) : bool := cell_is "morphosource_status" "Found" r.

Definition was_verified (r : row) : bool := cell_is "match_status" "Yes" r.

(** An output row that a completed turn of the loop can make of the cells
    of a row. *)
Definition output_of (search : Z -> string -> list dict) (cells out : row)
  : Prop :=
  exists n vals dp dm dv,
    outcome search n cells vals dp dm dv /\ out = output_row cells vals.



(** ** More sample data *)

(** An answer of the catalogue: the record that matches, one of another
    specimen, and one whose title is in lower case and padded. *)
Definition sample_answer : http_response :=
  answer_of [VDict item_match; VDict item_other_title; VDict item_lower_title].

(** An answer in which one item is not a record. *)
Definition broken_answer : http_response :=
  answer_of [VDict item_match; VInt 7].

(** A table of two rows, the second without identifier. *)
Definition sample_table : table :=
  {| columns := map fst row_mvz; rows := [row_mvz; row_no_institution] |}.

(** A table without the column [catalog_number]. *)
Definition short_table : table :=
  {| columns := ["institution_code"; "collection_code"; "Voxel_x_spacing";
                 "Voxel_y_spacing"; "Voxel_z_spacing"];
     rows := [] |}.

(** What a run leaves, when it completes. *)
Definition run_of (search : Z -> string -> list dict) (df : table) : run :=
  match process_csv search df with
  | Ok (Some r) => r
  | _ => {| results_df := []; summary := [] |}
  end.

(** The selection of [item_match]. *)
Definition info_match : match_info :=
  {| best := scan_of item_match; match_status := Verified |}.

(** * Properties *)

(** ** Strings *)

Lemma has_nonspace_app (a b : string) :
  has_nonspace (a +:+ b) = has_nonspace a || has_nonspace b.
Proof.
  induction a as [|c a IH]; simpl; [reflexivity|].
  rewrite IH, orb_assoc. reflexivity.
Qed.

Lemma has_nonspace_lstrip (s : string) :
  has_nonspace (lstrip s) = has_nonspace s.
Proof.
  induction s as [|c s IH]; simpl; [reflexivity|].
  destruct (is_space c) eqn:E; simpl; [exact IH | rewrite E; reflexivity].
Qed.

Lemma rstrip_empty (s : string) :
  rstrip s = "" -> has_nonspace s = false.
Proof.
  induction s as [|c s IH]; simpl; [reflexivity|].
  destruct (rstrip s) eqn:E; [|discriminate].
  destruct (is_space c); [intros _; simpl; auto | discriminate].
Qed.

Lemma strip_nonblank (s : string) :
  has_nonspace s = true -> nonempty (strip s) = true.
Proof.
  intros H. unfold nonempty, strip.
  destruct (String.eqb_spec (rstrip (lstrip s)) ""); [|reflexivity].
  apply rstrip_empty in e. rewrite has_nonspace_lstrip in e. congruence.
Qed.

Lemma nonempty_true (s : string) : nonempty s = true <-> s <> "".
Proof.
  unfold nonempty. destruct (String.eqb_spec s ""); simpl; split; intros H;
    congruence.
Qed.

(** The text of a float is never blank. *)
Lemma format_repr_nonblank (ds : string) (decpt : Z) :
  has_nonspace (format_repr ds decpt) = true.
Proof.
  unfold format_repr.
  repeat match goal with |- context [if ?b then _ else _] => destruct b end;
    rewrite ?has_nonspace_app; simpl; rewrite ?orb_true_r; reflexivity.
Qed.

Lemma float_repr_nonblank (f : float) : has_nonspace (float_repr f) = true.
Proof.
  unfold float_repr.
  destruct (Prim2SF f) as [[]|[]| |s m e]; try reflexivity.
  destruct (shortest_digits _ _ _ _ _ _) as [c p].
  destruct (drop_zeros _ _ _) as [c' p'].
  rewrite has_nonspace_app, format_repr_nonblank. apply orb_true_r.
Qed.

(** ** Floats *)

(** The sign given to the rounding does not reach the magnitude. *)
Lemma SFabs_binary_round_aux (p e : Z) (s1 s2 : bool) (m ex : Z) (l : location) :
  SFabs (binary_round_aux p e s1 m ex l) = SFabs (binary_round_aux p e s2 m ex l).
Proof.
  unfold binary_round_aux.
  destruct (shr_fexp p e m ex l) as [mrs' e'].
  destruct (shr_fexp p e _ e' loc_Exact) as [mrs'' e''].
  destruct (shr_m mrs''); try reflexivity.
  destruct (e'' <=? e - p); reflexivity.
Qed.

Lemma SFabs_binary_normalize_opp (p e m ex : Z) (sz : bool) :
  SFabs (binary_normalize p e (- m) ex sz) = SFabs (binary_normalize p e m ex sz).
Proof.
  destruct m; simpl; try reflexivity; unfold binary_round;
    destruct (shl_align _ _ _); apply SFabs_binary_round_aux.
Qed.

Lemma SFabs_sub_sym (x y : spec_float) :
  SFabs (SF64sub x y) = SFabs (SF64sub y x).
Proof.
  destruct x as [[]|[]| |sx mx ex], y as [[]|[]| |sy my ey]; try reflexivity.
  unfold SF64sub, SFsub.
  rewrite (Z.min_comm ey ex), <- SFabs_binary_normalize_opp.
  f_equal. f_equal. lia.
Qed.

Lemma within_sym (a b t : float) : within a b t = within b a t.
Proof.
  unfold within. rewrite !leb_spec, !abs_spec, !sub_spec, SFabs_sub_sym.
  reflexivity.
Qed.

(** *** Dividing by a larger integer does not overflow *)

Lemma digits2_pos_size (p : positive) : digits2_pos p = Pos.size p.
Proof. induction p; simpl; congruence. Qed.

Lemma Zdigits2_log2 (p : positive) :
  Zdigits2 (Zpos p) = Z.log2 (Zpos p) + 1.
Proof.
  simpl. rewrite digits2_pos_size. destruct p; simpl; lia.
Qed.

Lemma Zdigits2_nonneg (m : Z) : 0 <= Zdigits2 m.
Proof. destruct m; simpl; lia. Qed.

Lemma Zdigits2_le_pow (m k : Z) :
  0 <= k -> 0 <= m < 2 ^ k -> Zdigits2 m <= k.
Proof.
  intros Hk [H0 Hm]. destruct m as [|p|p]; [simpl; lia | | lia].
  rewrite Zdigits2_log2.
  assert (Z.log2 (Zpos p) < k) by (apply Z.log2_lt_pow2; lia). lia.
Qed.

Lemma Zdigits2_mono (a b : Z) : 0 <= a <= b -> Zdigits2 a <= Zdigits2 b.
Proof.
  intros [Ha Hab]. destruct a as [|p|p]; [apply Zdigits2_nonneg | | lia].
  destruct b as [|q|q]; try lia.
  rewrite !Zdigits2_log2.
  assert (Z.log2 (Zpos p) <= Z.log2 (Zpos q)) by (apply Z.log2_le_mono; lia).
  lia.
Qed.

Lemma Zdigits2_succ (m : Z) : 0 <= m -> Zdigits2 (m + 1) <= Zdigits2 m + 1.
Proof.
  intros Hm. destruct m as [|p|p]; [simpl; lia | | lia].
  replace (Zpos p + 1) with (Zpos (p + 1)) by lia.
  rewrite !Zdigits2_log2.
  assert (Z.log2 (Zpos (p + 1)) <= Z.log2 (2 * Zpos p))
    by (apply Z.log2_le_mono; lia).
  rewrite Z.log2_double in H by lia. lia.
Qed.

Lemma shr_1_bounds (mrs : shr_record) :
  0 <= shr_m mrs -> 0 <= shr_m (shr_1 mrs) <= shr_m mrs.
Proof.
  destruct mrs as [m r s]. simpl.
  destruct m as [|[p|p|]|[p|p|]]; simpl; lia.
Qed.

Lemma iter_shr_1_bounds (p : positive) (mrs : shr_record) :
  0 <= shr_m mrs -> 0 <= shr_m (SpecFloat.iter_pos shr_1 p mrs) <= shr_m mrs.
Proof.
  revert mrs. induction p as [p IH|p IH|]; intros mrs H; simpl.
  - pose proof (shr_1_bounds mrs H) as H1.
    pose proof (IH (shr_1 mrs) (proj1 H1)) as H2.
    pose proof (IH _ (proj1 H2)) as H3. lia.
  - pose proof (IH mrs H) as H2.
    pose proof (IH _ (proj1 H2)) as H3. lia.
  - apply shr_1_bounds. exact H.
Qed.

Lemma shr_fexp_bounds (m e : Z) (l : location) :
  0 <= m ->
  0 <= shr_m (fst (shr_fexp prec emax m e l)) <= m
  /\ snd (shr_fexp prec emax m e l) = Z.max e (fexp prec emax (Zdigits2 m + e)).
Proof.
  intros Hm. unfold shr_fexp, shr.
  assert (Hrec : shr_m (shr_record_of_loc m l) = m)
    by (destruct l as [|[]]; reflexivity).
  destruct (fexp prec emax (Zdigits2 m + e) - e) as [|p|p] eqn:E; simpl.
  - rewrite Hrec. lia.
  - pose proof (iter_shr_1_bounds p (shr_record_of_loc m l)) as H.
    rewrite Hrec in H. specialize (H Hm). lia.
  - rewrite Hrec. lia.
Qed.

Lemma round_nearest_even_bounds (m : Z) (l : location) :
  m <= round_nearest_even m l <= m + 1.
Proof.
  unfold round_nearest_even. destruct l as [|[]]; try lia.
  destruct (Z.even m); lia.
Qed.

Lemma fexp64 (e : Z) : fexp prec emax e = Z.max (e - 53) (-1074).
Proof. reflexivity. Qed.

Lemma binary_round_aux_no_overflow (s s' : bool) (m e : Z) (l : location) :
  0 <= m -> e <= 971 ->
  Zdigits2 m + 1 + Z.max e (fexp prec emax (Zdigits2 m + e)) <= 1024 ->
  binary_round_aux prec emax s m e l <> S754_infinity s'.
Proof.
  intros Hm He Hd. unfold binary_round_aux.
  pose proof (shr_fexp_bounds m e l Hm) as [Hm1 He1].
  destruct (shr_fexp prec emax m e l) as [mrs1 e1]. simpl in Hm1, He1.
  set (m2 := round_nearest_even (shr_m mrs1) (loc_of_shr_record mrs1)).
  pose proof (round_nearest_even_bounds (shr_m mrs1) (loc_of_shr_record mrs1))
    as Hr. fold m2 in Hr.
  assert (Hm2 : 0 <= m2) by lia.
  pose proof (shr_fexp_bounds m2 e1 loc_Exact Hm2) as [_ He2].
  destruct (shr_fexp prec emax m2 e1 loc_Exact) as [mrs2 e2]. simpl in He2.
  assert (Hdig : Zdigits2 m2 <= Zdigits2 m + 1).
  { transitivity (Zdigits2 (shr_m mrs1 + 1)); [apply Zdigits2_mono; lia|].
    transitivity (Zdigits2 (shr_m mrs1) + 1); [apply Zdigits2_succ; lia|].
    pose proof (Zdigits2_mono (shr_m mrs1) m). lia. }
  assert (He2' : e2 <= 971).
  { rewrite fexp64 in *. lia. }
  destruct (shr_m mrs2); try discriminate.
  change (emax - prec) with 971.
  destruct (Z.leb_spec e2 971); [discriminate | lia].
Qed.

Lemma round_ratio_no_overflow (s s' : bool) (a b : positive) :
  (a <= b)%positive -> round_ratio s a b <> S754_infinity s'.
Proof.
  intros Hab. unfold round_ratio, SFdiv_core_binary.
  set (e := Z.min _ _).
  assert (Hd : Zdigits2 (Zpos a) <= Zdigits2 (Zpos b))
    by (apply Zdigits2_mono; lia).
  assert (He : -1074 <= e <= -53).
  { subst e. rewrite fexp64. lia. }
  replace (0 - 0 - e) with (- e) by lia.
  destruct (- e) as [|sp|sp] eqn:Es; try lia.
  rewrite Z.shiftl_mul_pow2 by lia.
  assert (Hq : 0 <= (Zpos a * 2 ^ Zpos sp) / Zpos b <= 2 ^ Zpos sp).
  { split; [apply Z.div_pos; lia|].
    apply Z.div_le_upper_bound; [lia|]. nia. }
  unfold Z.div in Hq.
  destruct (Z.div_eucl (Zpos a * 2 ^ Zpos sp) (Zpos b)) as [q r].
  assert (Hdq : Zdigits2 q <= Zpos sp + 1).
  { apply Zdigits2_le_pow; [lia|]. rewrite Z.pow_add_r by lia. lia. }
  apply binary_round_aux_no_overflow; [lia | lia |].
  rewrite fexp64. lia.
Qed.

Lemma int_truediv_ok (a b : Z) :
  0 <= a <= b -> 0 < b -> exists f, int_truediv a b = Ok f.
Proof.
  intros Ha Hb. unfold int_truediv.
  destruct b as [|pb|pb]; try lia.
  destruct a as [|pa|pa]; try lia; [eauto|].
  pose proof (round_ratio_no_overflow (xorb (Zpos pa <? 0) (Zpos pb <? 0))) as H.
  simpl Z.abs. simpl Z.to_pos.
  destruct (round_ratio _ pa pb) eqn:E; eauto.
  exfalso. eapply H; [|exact E]. lia.
Qed.

Lemma percentage_ok (a b : Z) :
  0 <= a <= b -> 0 < b -> exists x, percentage a b = Ok x.
Proof.
  intros Ha Hb. unfold percentage.
  destruct (int_truediv_ok a b Ha Hb) as [f ->]. simpl. eauto.
Qed.

(** ** Identifier builder *)

Lemma unusable_spec (x : string) :
  unusable x = true <-> x = "" \/ x = "nan" \/ x = "None".
Proof.
  unfold unusable. rewrite !orb_true_iff, !String.eqb_eq. tauto.
Qed.

Lemma construct_specimen_id_unfold (r : row) :
  construct_specimen_id r =
    if unusable (trimmed r "institution_code")
       || unusable (trimmed r "collection_code")
       || unusable (trimmed r "catalog_number")
    then None
    else Some (trimmed r "institution_code" +:+ ":"
               +:+ trimmed r "collection_code" +:+ ":"
               +:+ trimmed r "catalog_number").
Proof.
  unfold construct_specimen_id, trimmed, unusable, nonempty. simpl.
  repeat match goal with |- context [String.eqb ?a ?b] =>
    destruct (String.eqb a b) end; reflexivity.
Qed.

(** C2 (amended).  The builder returns no identifier exactly when a
    trimmed component is empty or is literally [nan] or [None] (the texts of
    a missing cell and of the null object, compared with their case);
    otherwise it returns the three trimmed components joined by colons,
    unchanged in case: [("MVZ", "Mammals", " 12345 ")] gives
    [MVZ:Mammals:12345]. *)
Theorem construct_specimen_id_spec (r : row) :
  (construct_specimen_id r = None <->
   Exists (fun x => x = "" \/ x = "nan" \/ x = "None")
     [trimmed r "institution_code"; trimmed r "collection_code";
      trimmed r "catalog_number"])
  /\ (construct_specimen_id r <> None ->
      construct_specimen_id r =
        Some (trimmed r "institution_code" +:+ ":"
              +:+ trimmed r "collection_code" +:+ ":"
              +:+ trimmed r "catalog_number"))
  /\ construct_specimen_id (id_row (VStr "MVZ") (VStr "Mammals") (VStr " 12345 "))
     = Some "MVZ:Mammals:12345".
Proof.
  split; [|split; [|reflexivity]].
  - rewrite construct_specimen_id_unfold, !Exists_cons, Exists_nil,
      <- !unusable_spec.
    destruct (unusable _), (unusable _), (unusable _); simpl;
      intuition discriminate.
  - rewrite construct_specimen_id_unfold.
    destruct (_ || _); [intros H; now elim H | reflexivity].
Qed.

(** An identifier, once built, is not the empty string. *)
Lemma construct_specimen_id_truthy (r : row) (sid : string) :
  construct_specimen_id r = Some sid -> truthy (VStr sid) = true.
Proof.
  rewrite construct_specimen_id_unfold.
  destruct (unusable (trimmed r "institution_code")) eqn:E; simpl;
    [discriminate|].
  destruct (_ || _); [discriminate|]. intros H. injection H as <-.
  unfold unusable in E. destruct (trimmed r "institution_code");
    [discriminate E | reflexivity].
Qed.

(** C2 (counterexample).  A component [none] in lower case is a sentinel
    for the specification, yet the builder makes an identifier of it. *)
Lemma construct_specimen_id_lowercase_none :
  ~ (construct_specimen_id (id_row (VStr "none") (VStr "Mammals") (VStr "12345"))
       = None
     <-> claimed_no_identifier
           (id_row (VStr "none") (VStr "Mammals") (VStr "12345")) = true).
Proof.
  intros [_ H]. specialize (H eq_refl). discriminate H.
Qed.

(** ** Spacing extractor *)





(** ** Spacing comparator *)

Lemma is_not_none_true (v : value) : is_not_none v = true <-> v <> VNone.
Proof.
  unfold is_not_none. destruct v; simpl; split; intros H;
    solve [discriminate | reflexivity | now elim H].
Qed.

Lemma present_true (v : value) :
  is_not_none v && nonempty (strip (py_str v)) = true <-> present v.
Proof.
  unfold present. rewrite andb_true_iff, is_not_none_true, nonempty_true.
  reflexivity.
Qed.

Lemma csv_float_spec (v : value) (f : float) :
  csv_float v = Ok (Some f) <-> present v /\ py_float v = Ok f.
Proof.
  unfold csv_float. rewrite <- present_true.
  destruct (is_not_none v && nonempty (strip (py_str v))).
  - destruct (py_float v); simpl; split; intros H.
    + injection H as ->. auto.
    + destruct H as [_ H]. injection H as ->. reflexivity.
    + discriminate.
    + destruct H; discriminate.
  - split; intros H; [discriminate | destruct H; discriminate].
Qed.

Lemma csv_float_float (f : float) : csv_float (VFloat f) = Ok (Some f).
Proof.
  unfold csv_float. simpl.
  rewrite (strip_nonblank _ (float_repr_nonblank f)). reflexivity.
Qed.

(** What the comparator computes once the local values are numbers. *)
Lemma compare_body_floats (cx cy cz ax ay az : value) (fx fy fz : float)
    (t : float) :
  csv_float cx = Ok (Some fx) -> csv_float cy = Ok (Some fy) ->
  csv_float cz = Ok (Some fz) ->
  compare_body cx cy cz ax ay az t =
    if existsb is_none [ax; ay; az] then Ok false
    else x_match <- axis_match fx ax t ;;
         y_match <- axis_match fy ay t ;;
         z_match <- axis_match fz az t ;;
         Ok (x_match && y_match && z_match).
Proof.
  intros Hx Hy Hz. unfold compare_body. rewrite Hx, Hy, Hz. reflexivity.
Qed.

Lemma compare_floats (a1 a2 a3 b1 b2 b3 t : float) :
  compare_voxel_spacing (VFloat a1) (VFloat a2) (VFloat a3)
    (VFloat b1) (VFloat b2) (VFloat b3) t
  = within a1 b1 t && within a2 b2 t && within a3 b3 t.
Proof.
  unfold compare_voxel_spacing.
  rewrite (compare_body_floats _ _ _ _ _ _ a1 a2 a3) by apply csv_float_float.
  reflexivity.
Qed.

(** C6.  With remote values that are floats or absent, the comparator
    answers true exactly when the three local values are present and
    convert to floats, the three remote values are there, and the absolute
    difference is within the tolerance on each of the three axes; in every
    other case (a value missing or not convertible, or one axis out of
    tolerance) it answers false, and it never raises. *)
Theorem compare_voxel_spacing_spec (cx cy cz : value) (ox oy oz : option float)
    (t : float) :
  compare_voxel_spacing cx cy cz (remote ox) (remote oy) (remote oz) t = true
  <->
  exists fx fy fz ax ay az,
    (present cx /\ py_float cx = Ok fx)
    /\ (present cy /\ py_float cy = Ok fy)
    /\ (present cz /\ py_float cz = Ok fz)
    /\ ox = Some ax /\ oy = Some ay /\ oz = Some az
    /\ within fx ax t = true /\ within fy ay t = true /\ within fz az t = true.
Proof.
  split.
  - unfold compare_voxel_spacing, compare_body.
    destruct (csv_float cx) as [[fx|]|] eqn:Hx;
      destruct (csv_float cy) as [[fy|]|] eqn:Hy;
      destruct (csv_float cz) as [[fz|]|] eqn:Hz; simpl; try discriminate.
    destruct ox as [ax|], oy as [ay|], oz as [az|]; simpl; try discriminate.
    fold (within fx ax t) (within fy ay t) (within fz az t).
    rewrite !andb_true_iff. intros [[H1 H2] H3].
    exists fx, fy, fz, ax, ay, az.
    apply csv_float_spec in Hx, Hy, Hz.
    exact (conj Hx (conj Hy (conj Hz (conj eq_refl (conj eq_refl
             (conj eq_refl (conj H1 (conj H2 H3)))))))).
  - intros (fx & fy & fz & ax & ay & az & Hx & Hy & Hz & -> & -> & ->
            & H1 & H2 & H3).
    apply csv_float_spec in Hx, Hy, Hz.
    unfold compare_voxel_spacing.
    rewrite (compare_body_floats _ _ _ _ _ _ fx fy fz) by assumption.
    simpl. fold (within fx ax t) (within fy ay t) (within fz az t).
    rewrite H1, H2, H3. reflexivity.
Qed.

(** C7.  On triples of floats and with the tolerance 0.0001 the
    comparator gives the same answer whichever triple comes first; it
    accepts (1.0, 2.0, 3.0) against (1.00005, 2.0, 3.0) and rejects it
    against (1.0002, 2.0, 3.0). *)
Theorem compare_symmetric :
  (forall a b : triple,
     compare a b default_tolerance = compare b a default_tolerance)
  /\ compare (1.0, 2.0, 3.0)%float (1.00005, 2.0, 3.0)%float default_tolerance
     = true
  /\ compare (1.0, 2.0, 3.0)%float (1.0002, 2.0, 3.0)%float default_tolerance
     = false.
Proof.
  split; [|split].
  - intros [[a1 a2] a3] [[b1 b2] b3]. unfold compare.
    rewrite !compare_floats, (within_sym a1), (within_sym a2), (within_sym a3).
    reflexivity.
  - vm_compute. reflexivity.
  - vm_compute. reflexivity.
Qed.

(** ** Match selection *)

Lemma find_best_match_none (cx cy cz : value) (items : list dict) :
  Forall (fun i => verifies cx cy cz i = false) items ->
  find_best_match cx cy cz items = None.
Proof.
  induction 1 as [|i items Hi _ IH]; cbn [find_best_match]; [reflexivity|].
  unfold verifies in Hi. destruct (extract_voxel_spacing i) as [[ax ay] az].
  rewrite Hi. exact IH.
Qed.

Lemma available_scans_skip (pre rest : list dict) :
  Forall (fun i => has_full_spacing i = false /\ has_id i = false) pre ->
  available_scans (pre ++ rest) = available_scans rest.
Proof.
  induction 1 as [|i pre [Hf Hi] _ IH]; cbn [available_scans app];
    [reflexivity|].
  unfold has_full_spacing, has_id in *.
  destruct (extract_voxel_spacing i) as [[ax ay] az].
  rewrite Hf, Hi. exact IH.
Qed.

Lemma available_scans_full (c : dict) (rest : list dict) :
  has_full_spacing c = true ->
  available_scans (c :: rest) = scan_of c :: available_scans rest.
Proof.
  cbn [available_scans]. unfold has_full_spacing, scan_of.
  destruct (extract_voxel_spacing c) as [[ax ay] az]. intros ->. reflexivity.
Qed.

Lemma available_scans_id_only (c : dict) (rest : list dict) :
  has_full_spacing c = false -> has_id c = true ->
  available_scans (c :: rest) = id_only_scan c :: available_scans rest.
Proof.
  cbn [available_scans]. unfold has_full_spacing, has_id, id_only_scan.
  destruct (extract_voxel_spacing c) as [[ax ay] az]. intros -> ->. reflexivity.
Qed.

Lemma scan_of_api_x (c : dict) :
  has_full_spacing c = true -> is_not_none (api_x (scan_of c)) = true.
Proof.
  unfold has_full_spacing, scan_of.
  destruct (extract_voxel_spacing c) as [[ax ay] az]. simpl.
  intros H. apply andb_true_iff in H. tauto.
Qed.

Lemma scan_of_spacing (c : dict) :
  scan_spacing (scan_of c) = extract_voxel_spacing c.
Proof.
  unfold scan_spacing, scan_of.
  destruct (extract_voxel_spacing c) as [[ax ay] az]. reflexivity.
Qed.

(** The first item with its three spacings or with an id decides the
    outcome when nothing verifies: here it has its three spacings. *)
Lemma select_first_full (cx cy cz : value) (pre post : list dict) (c : dict) :
  Forall (fun i => verifies cx cy cz i = false) (pre ++ c :: post) ->
  Forall (fun i => has_full_spacing i = false /\ has_id i = false) pre ->
  has_full_spacing c = true ->
  exists info,
    select_match_info cx cy cz (pre ++ c :: post) = Ok (Some info)
    /\ best info = scan_of c
    /\ found_status info = "Mismatch".
Proof.
  intros Hv Hpre Hc. unfold select_match_info.
  rewrite (find_best_match_none _ _ _ _ Hv), (available_scans_skip _ _ Hpre).
  simpl option_map. cbv beta iota delta [no_best_match].
  rewrite (available_scans_full _ _ Hc).
  eexists. split; [reflexivity|]. split; [reflexivity|].
  unfold found_status. simpl. rewrite (scan_of_api_x _ Hc). reflexivity.
Qed.

(** Here it has an id only. *)
Lemma select_first_id_only (cx cy cz : value) (pre post : list dict)
    (c : dict) :
  Forall (fun i => verifies cx cy cz i = false) (pre ++ c :: post) ->
  Forall (fun i => has_full_spacing i = false /\ has_id i = false) pre ->
  has_full_spacing c = false -> has_id c = true ->
  exists info,
    select_match_info cx cy cz (pre ++ c :: post) = Ok (Some info)
    /\ best info = id_only_scan c
    /\ found_status info = "Missing Data".
Proof.
  intros Hv Hpre Hc Hi. unfold select_match_info.
  rewrite (find_best_match_none _ _ _ _ Hv), (available_scans_skip _ _ Hpre).
  simpl option_map. cbv beta iota delta [no_best_match].
  rewrite (available_scans_id_only _ _ Hc Hi).
  eexists. split; [reflexivity|]. split; reflexivity.
Qed.

(** C1 (amended).  When no candidate verifies, the outcome is bound to
    the first candidate, in catalogue order, that has its three spacings or
    has an id.  If that candidate has its three spacings (so that it is the
    first available scan and no candidate before it has an id), the outcome
    is Mismatch with its id and its spacing; if it only has an id, the
    outcome is Missing Data with its id, whatever spacing later candidates
    have. *)
Theorem mismatch_bound_to_first_entry (cx cy cz : value)
    (pre post : list dict) (c : dict) :
  Forall (fun i => verifies cx cy cz i = false) (pre ++ c :: post) ->
  Forall (fun i => has_full_spacing i = false /\ has_id i = false) pre ->
  (has_full_spacing c = true ->
   exists info,
     select_match_info cx cy cz (pre ++ c :: post) = Ok (Some info)
     /\ best info = scan_of c
     /\ found_status info = "Mismatch")
  /\ (has_full_spacing c = false -> has_id c = true ->
      exists info,
        select_match_info cx cy cz (pre ++ c :: post) = Ok (Some info)
        /\ best info = id_only_scan c
        /\ found_status info = "Missing Data").
Proof.
  intros Hv Hpre. split.
  - apply select_first_full; assumption.
  - apply select_first_id_only; assumption.
Qed.

(** C1 (witness).  A record with nothing, then one with a spacing that
    does not match, then one with an id only. *)
Lemma mismatch_bound_to_first_entry_witness :
  Forall (fun i => verifies csv csv csv i = false)
    ([item_plain] ++ item_full :: [item_id_only])
  /\ Forall (fun i => has_full_spacing i = false /\ has_id i = false)
       [item_plain]
  /\ exists info,
       select_match_info csv csv csv
         ([item_plain] ++ item_full :: [item_id_only]) = Ok (Some info)
       /\ best info = scan_of item_full
       /\ found_status info = "Mismatch".
Proof.
  assert (Hv : Forall (fun i => verifies csv csv csv i = false)
                 ([item_plain] ++ item_full :: [item_id_only]))
    by (repeat constructor).
  assert (Hp : Forall (fun i => has_full_spacing i = false /\ has_id i = false)
                 [item_plain])
    by (repeat constructor).
  split; [exact Hv|]. split; [exact Hp|].
  apply (proj1 (mismatch_bound_to_first_entry csv csv csv
                  [item_plain] [item_id_only] item_full Hv Hp)).
  reflexivity.
Defined.

(** C1 (counterexample).  No candidate verifies and the second one is the
    first with its three spacings, but the first one has an id: the outcome
    is Missing Data bound to the first, not Mismatch bound to the second. *)
Lemma first_entry_without_spacing_wins :
  find_best_match csv csv csv [item_id_only; item_full] = None
  /\ find has_full_spacing [item_id_only; item_full] = Some item_full
  /\ (exists info,
        select_match_info csv csv csv [item_id_only; item_full]
          = Ok (Some info)
        /\ media_id (best info) = "000011111"
        /\ found_status info = "Missing Data")
  /\ ~ (exists info,
          select_match_info csv csv csv [item_id_only; item_full]
            = Ok (Some info)
          /\ best info = scan_of item_full
          /\ found_status info = "Mismatch").
Proof.
  split; [vm_compute; reflexivity|]. split; [vm_compute; reflexivity|].
  split.
  - eexists. split; [vm_compute; reflexivity|]. split; reflexivity.
  - intros (info & Hs & _ & Hf). vm_compute in Hs.
    injection Hs as <-. discriminate Hf.
Qed.

Lemma float_sub_non_numeric (f : float) (v : value) :
  non_numeric v = true -> float_sub f v = Raise TypeError.
Proof. destruct v; simpl; intros H; try discriminate; reflexivity. Qed.

Lemma axis_match_non_numeric (f : float) (v : value) (t : float) :
  non_numeric v = true -> axis_match f v t = Raise TypeError.
Proof.
  intros H. unfold axis_match. rewrite (float_sub_non_numeric _ _ H).
  reflexivity.
Qed.

(** A remote value that is not a number makes the comparison fail. *)
Lemma compare_non_numeric (cx cy cz ax ay az : value) (t : float) :
  non_numeric ax || non_numeric ay || non_numeric az = true ->
  compare_voxel_spacing cx cy cz ax ay az t = false.
Proof.
  intros H. unfold compare_voxel_spacing, compare_body.
  destruct (csv_float cx) as [[fx|]|]; destruct (csv_float cy) as [[fy|]|];
    destruct (csv_float cz) as [[fz|]|]; simpl; try reflexivity.
  destruct (is_none ax || (is_none ay || (is_none az || false)));
    [reflexivity|].
  apply orb_true_iff in H as [H|Hz]; [apply orb_true_iff in H as [Hx|Hy]|].
  - rewrite (axis_match_non_numeric _ _ _ Hx). reflexivity.
  - rewrite (axis_match_non_numeric _ _ _ Hy).
    destruct (axis_match fx ax t); reflexivity.
  - rewrite (axis_match_non_numeric _ _ _ Hz).
    destruct (axis_match fx ax t); simpl; [|reflexivity].
    destruct (axis_match fy ay t); reflexivity.
Qed.

Lemma non_numeric_never_verifies (cx cy cz : value) (c : dict) :
  some_axis_non_numeric c = true -> verifies cx cy cz c = false.
Proof.
  unfold some_axis_non_numeric, verifies.
  destruct (extract_voxel_spacing c) as [[ax ay] az]. intros H.
  rewrite (compare_non_numeric _ _ _ _ _ _ _ H). apply andb_false_r.
Qed.

(** C3 (amended).  A candidate with an extracted axis that is not a number
    (a string, a list or a dictionary) never verifies: the comparator
    answers false for it.  The selection only tests for [None]: when none of
    its three axes is [None] the candidate counts as an available scan, and
    when it comes first and nothing after it verifies the outcome is
    Mismatch with its extracted values, the raw one included, as spacing. *)
Theorem non_numeric_spacing_kept (cx cy cz : value) (c : dict)
    (rest : list dict) :
  some_axis_non_numeric c = true ->
  verifies cx cy cz c = false
  /\ (has_full_spacing c = true ->
      Forall (fun i => verifies cx cy cz i = false) rest ->
      exists info,
        select_match_info cx cy cz (c :: rest) = Ok (Some info)
        /\ found_status info = "Mismatch"
        /\ scan_spacing (best info) = extract_voxel_spacing c).
Proof.
  intros Hn. pose proof (non_numeric_never_verifies cx cy cz c Hn) as Hv.
  split; [exact Hv|]. intros Hf Hrest.
  destruct (select_first_full cx cy cz [] rest c) as (info & Hs & Hb & Hst);
    [constructor; assumption | constructor | assumption |].
  exists info. rewrite Hb, scan_of_spacing. auto.
Qed.

(** C3 (witness).  A record whose x axis is the text [abc]. *)
Lemma non_numeric_spacing_kept_witness :
  some_axis_non_numeric item_bad_x = true
  /\ verifies csv csv csv item_bad_x = false
  /\ (has_full_spacing item_bad_x = true ->
      Forall (fun i => verifies csv csv csv i = false) [] ->
      exists info,
        select_match_info csv csv csv [item_bad_x] = Ok (Some info)
        /\ found_status info = "Mismatch"
        /\ scan_spacing (best info) = extract_voxel_spacing item_bad_x).
Proof.
  split; [reflexivity|].
  apply (non_numeric_spacing_kept csv csv csv item_bad_x []).
  reflexivity.
Defined.

(** C3 (counterexample).  The record whose x axis is the text [abc] has
    its three axes counted as known, and the text lands in the spacing of a
    Mismatch. *)
Lemma raw_text_in_mismatch :
  some_axis_non_numeric item_bad_x = true
  /\ has_full_spacing item_bad_x = true
  /\ exists info,
       select_match_info csv csv csv [item_bad_x] = Ok (Some info)
       /\ found_status info = "Mismatch"
       /\ spacing_text (api_x (best info)) = "abc".
Proof.
  split; [reflexivity|]. split; [reflexivity|].
  eexists. split; [vm_compute; reflexivity|]. split; reflexivity.
Qed.

(** An item that lacks a spacing value does not verify. *)
Lemma not_full_never_verifies (cx cy cz : value) (i : dict) :
  has_full_spacing i = false -> verifies cx cy cz i = false.
Proof.
  unfold verifies, has_full_spacing.
  destruct (extract_voxel_spacing i) as [[ax ay] az].
  unfold all_not_none. simpl.
  destruct (is_not_none ax), (is_not_none ay), (is_not_none az);
    simpl; intros H; try discriminate H; reflexivity.
Qed.


(** Candidates without id and without spacing give Missing Data with an
    empty id when the first of them has no [id] key at all. *)
Lemma missing_data_without_id_key (cx cy cz : value) (first : dict)
    (rest : list dict) :
  Forall (fun i => has_full_spacing i = false /\ has_id i = false)
    (first :: rest) ->
  (forall v, dict_get first "id" v = v) ->
  select_match_info cx cy cz (first :: rest) =
    Ok (Some {| best := {| media_id := ""; api_x := VNone; api_y := VNone;
                           api_z := VNone |};
                match_status := FoundButNoVoxelData |}).
Proof.
  intros Hall Hid. unfold select_match_info.
  rewrite find_best_match_none.
  - pose proof (available_scans_skip _ [] Hall) as Ha.
    rewrite app_nil_r in Ha. rewrite Ha. simpl. rewrite Hid. reflexivity.
  - eapply Forall_impl; [exact Hall|]. intros i [Hf _].
    apply not_full_never_verifies. exact Hf.
Qed.

(** They end the selection with an exception when the first of them has
    an [id] that cannot be indexed: an empty list or string, the null
    object, a number. *)
Lemma select_match_info_last_resort (cx cy cz : value) (first : dict)
    (rest : list dict) (e : exn) :
  Forall (fun i => has_full_spacing i = false /\ has_id i = false)
    (first :: rest) ->
  getitem0 (dict_get first "id" (VList [VStr ""])) = Raise e ->
  select_match_info cx cy cz (first :: rest) = Raise e.
Proof.
  intros Hall Hid. unfold select_match_info.
  rewrite find_best_match_none.
  - pose proof (available_scans_skip _ [] Hall) as Ha.
    rewrite app_nil_r in Ha. rewrite Ha. simpl. rewrite Hid. reflexivity.
  - eapply Forall_impl; [exact Hall|]. intros i [Hf _].
    apply not_full_never_verifies. exact Hf.
Qed.

(** C5 (the defect).  The only candidate has an empty list for id and no
    spacing: the last resort of the selection indexes that empty list, the
    [IndexError] is caught nowhere, and it ends the whole run instead of
    giving the row a Missing Data outcome with an empty id. *)
Theorem empty_id_list_aborts_run :
  process_csv (catalog_of [item_empty_id]) (table_of row_mvz)
  = Raise IndexError.
Proof. vm_compute. reflexivity. Qed.

(** ** Row loop *)

Lemma deref_old (h l : heap) (r : ref) :
  (r < length h)%nat -> deref (h ++ l) r = deref h r.
Proof.
  intros H. unfold deref. rewrite lookup_app_l by exact H. reflexivity.
Qed.

(** Assigning to a cell of the newest object. *)
Lemma setitem_new (h : heap) (cells : row) (k : string) (v : value) :
  setitem (h ++ [cells]) (length h) k v = h ++ [row_set cells k v].
Proof.
  unfold setitem. rewrite alter_app_r_alt by reflexivity.
  rewrite Nat.sub_diag. reflexivity.
Qed.

Lemma set_outcome_new (h : heap) (cells : row) (a b s x y z : string) :
  set_outcome (h ++ [cells]) (length h) a b s x y z
  = h ++ [assign cells
            [("morphosource_status", VStr a); ("matched_media_id", VStr b);
             ("match_status", VStr s); ("api_x_spacing", VStr x);
             ("api_y_spacing", VStr y); ("api_z_spacing", VStr z)]].
Proof. unfold set_outcome. rewrite !setitem_new. reflexivity. Qed.



Lemma NoDup_result_columns : List.NoDup result_columns.
Proof.
  unfold result_columns. repeat constructor; simpl; intuition discriminate.
Qed.

Lemma print_summary_spec (total p m v : Z) :
  0 <= v <= m -> m <= p ->
  exists out,
    print_summary total p m v = Ok out
    /\ (forall x, In (SearchSuccessRate x) out
                  <-> p <> 0 /\ percentage m p = Ok x)
    /\ (forall x, In (VerificationSuccessRate x) out
                  <-> m <> 0 /\ percentage v m = Ok x).
Proof.
  intros Hv Hm. unfold print_summary.
  destruct (Z.ltb_spec 0 p) as [Hp|Hp]; destruct (Z.ltb_spec 0 m) as [Hm0|Hm0];
    try lia.
  - destruct (percentage_ok m p) as [x Hx]; [lia | lia |].
    destruct (percentage_ok v m) as [y Hy]; [lia | lia |].
    rewrite Hx, Hy. simpl. eexists. split; [reflexivity|].
    split; intros z; simpl; split.
    + intros [H|[H|[H|[H|[H|[H|[]]]]]]]; try discriminate H.
      injection H as <-. split; [lia | reflexivity].
    + intros [_ H]. injection H as <-. auto 10.
    + intros [H|[H|[H|[H|[H|[H|[]]]]]]]; try discriminate H.
      injection H as <-. split; [lia | reflexivity].
    + intros [_ H]. injection H as <-. auto 10.
  - destruct (percentage_ok m p) as [x Hx]; [lia | lia |].
    rewrite Hx. simpl. eexists. split; [reflexivity|].
    split; intros z; simpl; split.
    + intros [H|[H|[H|[H|[H|[]]]]]]; try discriminate H.
      injection H as <-. split; [lia | reflexivity].
    + intros [_ H]. injection H as <-. auto 10.
    + intros [H|[H|[H|[H|[H|[]]]]]]; discriminate H.
    + intros [H _]. lia.
  - simpl. eexists. split; [reflexivity|].
    split; intros z; simpl; split.
    + intros [H|[H|[H|[H|[]]]]]; discriminate H.
    + intros [H _]. lia.
    + intros [H|[H|[H|[H|[]]]]]; discriminate H.
    + intros [H _]. lia.
Qed.

Section RowLoop.

Variable search : Z -> string -> list dict.


(** What a turn of the loop does to the counters. *)
Lemma process_row_counters (st st' : state) (row : ref) :
  process_row search st row = Ok st' ->
  exists dp dm dv : Z,
    processed st' = processed st + dp /\ matched st' = matched st + dm
    /\ verified st' = verified st + dv
    /\ 0 <= dv <= dm /\ dm <= dp <= 1.
Proof.
  unfold process_row, copy.
  destruct (negb (truthy _)).
  - intros H. injection H as <-. exists 0, 0, 0. simpl. lia.
  - destruct (search _ _) as [|item items].
    + intros H. injection H as <-. exists 1, 0, 0. simpl. lia.
    + destruct (select_match_info _ _ _ _) as [[info|]|e]; simpl;
        intros H; [| |discriminate]; injection H as <-; simpl.
      * destruct (is_verified (match_status info));
          [exists 1, 1, 1 | exists 1, 1, 0]; lia.
      * exists 1, 1, 0. lia.
Qed.

Lemma process_rows_counters (handled : list ref) (st st' : state) (n : Z) :
  process_rows search st handled = Ok st' ->
  0 <= verified st <= matched st /\ matched st <= processed st <= n ->
  0 <= verified st' <= matched st'
  /\ matched st' <= processed st' <= n + Z.of_nat (length handled).
Proof.
  revert st n. induction handled as [|row rest IH]; intros st n; simpl.
  - intros H. injection H as <-. lia.
  - destruct (process_row search st row) as [st1|e] eqn:H1; simpl;
      [|discriminate].
    intros H Hinv.
    destruct (process_row_counters _ _ _ H1)
      as (dp & dm & dv & Hp & Hm & Hv & Hd).
    specialize (IH st1 (n + 1) H). lia.
Qed.

(** C10.  Whatever rows the loop has handled since the start,
    [0 <= verified <= matched <= processed <= rows handled]; and the next
    row adds at most one to each counter, to [verified] only if to
    [matched], to [matched] only if to [processed]. *)
Theorem counters_invariant (df : table) (handled : list ref) (st : state) :
  process_rows search (initial_state df) handled = Ok st ->
  (0 <= verified st <= matched st
   /\ matched st <= processed st <= Z.of_nat (length handled))
  /\ forall (row : ref) (st' : state),
       process_row search st row = Ok st' ->
       exists dp dm dv : Z,
         processed st' = processed st + dp /\ matched st' = matched st + dm
         /\ verified st' = verified st + dv
         /\ 0 <= dv <= dm /\ dm <= dp <= 1.
Proof.
  intros H. split.
  - apply (process_rows_counters _ _ _ 0 H). simpl. lia.
  - intros row st'. apply process_row_counters.
Qed.

(** The three ways through a turn of the loop that completes. *)
Lemma process_row_no_identifier (st : state) (row : ref) :
  (row < length (objects st))%nat ->
  construct_specimen_id (deref (objects st) row) = None ->
  process_row search st row =
    Ok {| objects :=
            objects st
              ++ [assign (deref (objects st) row)
                    (combine result_columns
                       [VNone; VStr "No Specimen ID"; VStr ""; VStr "No";
                        VStr ""; VStr ""; VStr ""])];
          results := results st ++ [length (objects st)];
          processed := processed st;
          matched := matched st;
          verified := verified st |}.
Proof.
  intros Hrow Hid. unfold process_row, copy.
  rewrite setitem_new, !deref_old by exact Hrow.
  rewrite Hid. simpl. rewrite set_outcome_new. reflexivity.
Qed.

Lemma process_row_not_found (st : state) (row : ref) (sid : string) :
  (row < length (objects st))%nat ->
  construct_specimen_id (deref (objects st) row) = Some sid ->
  search (processed st) sid = [] ->
  process_row search st row =
    Ok {| objects :=
            objects st
              ++ [assign (deref (objects st) row)
                    (combine result_columns
                       [VStr sid; VStr "Not Found"; VStr ""; VStr "No";
                        VStr ""; VStr ""; VStr ""])];
          results := results st ++ [length (objects st)];
          processed := processed st + 1;
          matched := matched st;
          verified := verified st |}.
Proof.
  intros Hrow Hid Hs. unfold process_row, copy.
  rewrite setitem_new, !deref_old by exact Hrow.
  rewrite Hid. cbn [id_value]. rewrite (construct_specimen_id_truthy _ _ Hid).
  simpl. rewrite Hs, set_outcome_new. reflexivity.
Qed.

Lemma process_row_found (st : state) (row : ref) (sid : string)
    (item : dict) (items : list dict) (info : match_info) :
  (row < length (objects st))%nat ->
  construct_specimen_id (deref (objects st) row) = Some sid ->
  search (processed st) sid = item :: items ->
  select_match_info
    (row_get (deref (objects st) row) "Voxel_x_spacing" VNone)
    (row_get (deref (objects st) row) "Voxel_y_spacing" VNone)
    (row_get (deref (objects st) row) "Voxel_z_spacing" VNone)
    (item :: items) = Ok (Some info) ->
  process_row search st row =
    Ok {| objects :=
            objects st
              ++ [assign (deref (objects st) row)
                    (combine result_columns
                       [VStr sid; VStr "Found"; VStr (media_id (best info));
                        VStr (found_status info);
                        VStr (spacing_text (api_x (best info)));
                        VStr (spacing_text (api_y (best info)));
                        VStr (spacing_text (api_z (best info)))])];
          results := results st ++ [length (objects st)];
          processed := processed st + 1;
          matched := matched st + 1;
          verified := if is_verified (match_status info)
                      then verified st + 1 else verified st |}.
Proof.
  intros Hrow Hid Hs Hsel. unfold process_row, copy.
  rewrite setitem_new, !deref_old by exact Hrow.
  rewrite Hid. cbn [id_value]. rewrite (construct_specimen_id_truthy _ _ Hid).
  simpl. rewrite Hs, Hsel. simpl. rewrite set_outcome_new. reflexivity.
Qed.



(** C8.  When the loop over the table completes, so does the run: the
    summary is printed without any error, the search success rate appears
    in it exactly when the number of searches is not zero and is then
    [matched / processed * 100], and the verification rate appears exactly
    when the number of rows found is not zero and is then
    [verified / matched * 100]. *)
Theorem rates_guarded (df : table) (st : state) :
  missing_columns df = [] ->
  process_rows search (initial_state df) (row_refs df) = Ok st ->
  exists out,
    process_csv search df =
      Ok (Some {| results_df := map (deref (objects st)) (results st);
                  summary := out |})
    /\ (forall x, In (SearchSuccessRate x) out
                  <-> processed st <> 0
                      /\ percentage (matched st) (processed st) = Ok x)
    /\ (forall x, In (VerificationSuccessRate x) out
                  <-> matched st <> 0
                      /\ percentage (verified st) (matched st) = Ok x).
Proof.
  intros Hcols Hrun.
  pose proof (process_rows_counters _ _ _ 0 Hrun) as Hinv.
  simpl in Hinv. specialize (Hinv ltac:(lia)).
  destruct (print_summary_spec (Z.of_nat (length (rows df)))
              (processed st) (matched st) (verified st))
    as (out & Hout & Hs & Hv); [lia | lia |].
  exists out. split; [|split; assumption].
  unfold process_csv. rewrite Hcols, Hrun. simpl. rewrite Hout. reflexivity.
Qed.

End RowLoop.

(** C10 (witness).  One row, found and verified. *)
Lemma counters_invariant_witness :
  process_rows (catalog_of [item_match]) (initial_state (table_of row_mvz))
    [0%nat] = Ok sample_state
  /\ (0 <= verified sample_state <= matched sample_state
      /\ matched sample_state <= processed sample_state
         <= Z.of_nat (length [0%nat]))
  /\ forall (row : ref) (st' : state),
       process_row (catalog_of [item_match]) sample_state row = Ok st' ->
       exists dp dm dv : Z,
         processed st' = processed sample_state + dp
         /\ matched st' = matched sample_state + dm
         /\ verified st' = verified sample_state + dv
         /\ 0 <= dv <= dm /\ dm <= dp <= 1.
Proof.
  assert (H : process_rows (catalog_of [item_match])
                (initial_state (table_of row_mvz)) [0%nat] = Ok sample_state)
    by (vm_compute; reflexivity).
  split; [exact H|].
  exact (counters_invariant (catalog_of [item_match]) (table_of row_mvz)
           [0%nat] sample_state H).
Defined.



(** C8 (witness).  One row, found and verified: both rates are 100. *)
Lemma rates_guarded_witness :
  missing_columns (table_of row_mvz) = []
  /\ process_rows (catalog_of [item_match]) (initial_state (table_of row_mvz))
       (row_refs (table_of row_mvz)) = Ok sample_state
  /\ exists out,
       process_csv (catalog_of [item_match]) (table_of row_mvz) =
         Ok (Some {| results_df :=
                       map (deref (objects sample_state)) (results sample_state);
                     summary := out |})
       /\ (forall x, In (SearchSuccessRate x) out
                     <-> processed sample_state <> 0
                         /\ percentage (matched sample_state)
                              (processed sample_state) = Ok x)
       /\ (forall x, In (VerificationSuccessRate x) out
                     <-> matched sample_state <> 0
                         /\ percentage (verified sample_state)
                              (matched sample_state) = Ok x).
Proof.
  assert (H1 : missing_columns (table_of row_mvz) = []) by reflexivity.
  assert (H2 : process_rows (catalog_of [item_match])
                 (initial_state (table_of row_mvz))
                 (row_refs (table_of row_mvz)) = Ok sample_state)
    by (vm_compute; reflexivity).
  split; [exact H1|]. split; [exact H2|].
  exact (rates_guarded (catalog_of [item_match]) (table_of row_mvz)
           sample_state H1 H2).
Defined.

(** ** Worked runs *)

(** One candidate whose spacing matches: Verified. *)
Example run_verified :
  process_csv (catalog_of [item_match]) (table_of row_mvz) =
    Ok (Some {| results_df :=
                  [annotated row_mvz (VStr "MVZ:Mammals:12345") "Found"
                     "000033333" "Yes" "0.05" "0.05" "0.05"];
                summary :=
                  [TotalRows 1; SpecimensSearched 1; FoundInMorphoSource 1;
                   ExactMatches 1; SearchSuccessRate 100;
                   VerificationSuccessRate 100] |}).
Proof. vm_compute. reflexivity. Qed.

(** Two candidates, none matching, the first with its spacing, the second
    without: Mismatch bound to the first. *)
Example run_mismatch :
  process_csv (catalog_of [item_full; item_plain]) (table_of row_mvz) =
    Ok (Some {| results_df :=
                  [annotated row_mvz (VStr "MVZ:Mammals:12345") "Found"
                     "000022222" "Mismatch" "0.5" "0.5" "0.5"];
                summary :=
                  [TotalRows 1; SpecimensSearched 1; FoundInMorphoSource 1;
                   ExactMatches 0; SearchSuccessRate 100;
                   VerificationSuccessRate 0] |}).
Proof. vm_compute. reflexivity. Qed.

(** Candidates with an id and no spacing: Missing Data bound to the first
    id. *)
Example run_missing_data :
  process_csv (catalog_of [item_id_only; item_plain]) (table_of row_mvz) =
    Ok (Some {| results_df :=
                  [annotated row_mvz (VStr "MVZ:Mammals:12345") "Found"
                     "000011111" "Missing Data" "" "" ""];
                summary :=
                  [TotalRows 1; SpecimensSearched 1; FoundInMorphoSource 1;
                   ExactMatches 0; SearchSuccessRate 100;
                   VerificationSuccessRate 0] |}).
Proof. vm_compute. reflexivity. Qed.

(** No candidate: Not Found, and no verification rate in the summary. *)
Example run_not_found :
  process_csv (catalog_of []) (table_of row_mvz) =
    Ok (Some {| results_df :=
                  [annotated row_mvz (VStr "MVZ:Mammals:12345") "Not Found"
                     "" "No" "" "" ""];
                summary :=
                  [TotalRows 1; SpecimensSearched 1; FoundInMorphoSource 0;
                   ExactMatches 0; SearchSuccessRate 0] |}).
Proof. vm_compute. reflexivity. Qed.

(** No identifier: no query, and no rate in the summary. *)
Example run_no_identifier :
  process_csv (catalog_of [item_match]) (table_of row_no_institution) =
    Ok (Some {| results_df :=
                  [annotated row_no_institution VNone "No Specimen ID"
                     "" "No" "" "" ""];
                summary :=
                  [TotalRows 1; SpecimensSearched 0; FoundInMorphoSource 0;
                   ExactMatches 0] |}).
Proof. vm_compute. reflexivity. Qed.

(** * Further properties *)

(** ** [search_morphosource] *)

Lemma exact_matches_sound (l : list value) (id : string) (ms : list dict) :
  exact_matches l id = Some ms ->
  forall d, In d ms -> In (VDict d) l /\ title_matches (VDict d) id = Some true.
Proof.
  revert ms. induction l as [|item rest IH]; cbn [exact_matches]; intros ms H.
  - injection H as <-. intros d [].
  - destruct (title_matches item id) as [same|] eqn:Ht; [|discriminate].
    destruct (exact_matches rest id) as [matches|]; [|discriminate].
    injection H as <-. intros d Hd.
    destruct item as [| | | | |?|d0];
      try (destruct (IH _ eq_refl d Hd); split; [right|]; assumption).
    destruct same.
    + apply in_inv in Hd as [<-|Hd]; [split; [left; reflexivity | exact Ht]|].
      destruct (IH _ eq_refl d Hd); split; [right|]; assumption.
    + destruct (IH _ eq_refl d Hd); split; [right|]; assumption.
Qed.

Lemma title_matches_true (d : dict) (id : string) :
  title_matches (VDict d) id = Some true ->
  exists t, object_title_of d = VStr t /\ upper (strip t) = upper id.
Proof.
  simpl. destruct (object_title_of d); try discriminate.
  intros H. injection H as H. apply bool_decide_eq_true in H. eauto.
Qed.

Lemma search_response_inv (debug_ok : bool) (answer : option http_response)
    (id : string) (ms : list dict) :
  search_response debug_ok answer id = ms -> ms <> [] ->
  debug_ok = true
  /\ exists response data l,
    answer = Some response /\ status_code response = 200
    /\ json response = Some data
    /\ find_media_items data = Some (Some (VList l))
    /\ exact_matches l id = Some ms.
Proof.
  unfold search_response, search_body. intros <- Hne.
  destruct answer as [response|]; [|now elim Hne].
  destruct (Z.eqb_spec (status_code response) 200) as [Hs|]; [|now elim Hne].
  destruct (json response) as [data|] eqn:Hj; [|now elim Hne].
  destruct debug_ok; [|now elim Hne]. split; [reflexivity|]. cbn [negb].
  destruct (find_media_items data) as [[media_items|]|] eqn:Hf;
    try (now elim Hne).
  destruct (truthy media_items); [|now elim Hne].
  destruct media_items; try (now elim Hne).
  destruct (exact_matches l id) as [ms|] eqn:Hm; [|now elim Hne].
  exists response, data, l.
  exact (conj eq_refl (conj Hs (conj Hj (conj Hf Hm)))).
Qed.

(** X1.  Every record that the search returns comes from the media list of
    an answer with status 200 and a body in JSON, and its title, trimmed and
    in capitals, is the identifier in capitals; and the debug step of the
    call, if it had one, completed. *)
Theorem search_response_sound (debug_ok : bool)
    (answer : option http_response) (id : string) (d : dict) :
  In d (search_response debug_ok answer id) ->
  (exists t, object_title_of d = VStr t /\ upper (strip t) = upper id)
  /\ debug_ok = true
  /\ exists response data l,
       answer = Some response /\ status_code response = 200
       /\ json response = Some data
       /\ find_media_items data = Some (Some (VList l))
       /\ In (VDict d) l.
Proof.
  intros Hd.
  destruct (search_response_inv debug_ok answer id _ eq_refl)
    as (Hok & response & data & l & Ha & Hs & Hj & Hf & Hm).
  { intros E. rewrite E in Hd. destruct Hd. }
  destruct (exact_matches_sound _ _ _ Hm d Hd) as [Hin Ht].
  split; [apply title_matches_true; exact Ht|]. split; [exact Hok|].
  exists response, data, l. auto.
Qed.





Lemma exact_matches_all_or_nothing (l : list value) (id : string) (v : value) :
  In v l -> title_matches v id = None -> exact_matches l id = None.
Proof.
  induction l as [|item rest IH]; cbn [exact_matches]; [intros []|].
  intros [->|Hin] Hv; [rewrite Hv; reflexivity|].
  destruct (title_matches item id); [|reflexivity].
  rewrite (IH Hin Hv). reflexivity.
Qed.

(** X3.  One item of the media list that is not a record, or whose title is
    not a text, empties the whole result, whatever the other records are. *)
Theorem search_response_all_or_nothing (debug_ok : bool)
    (response : http_response) (data : value) (l : list value) (id : string)
    (v : value) :
  json response = Some data ->
  find_media_items data = Some (Some (VList l)) ->
  In v l ->
  (forall d, v = VDict d -> forall t, object_title_of d <> VStr t) ->
  search_response debug_ok (Some response) id = [].
Proof.
  intros Hj Hf Hin Hv. unfold search_response, search_body.
  destruct (status_code response =? 200); [|reflexivity].
  rewrite Hj. destruct debug_ok; [|reflexivity]. rewrite Hf. simpl.
  destruct l as [|x l']; [destruct Hin|]. simpl truthy. cbv iota.
  rewrite (exact_matches_all_or_nothing _ id v Hin); [reflexivity|].
  destruct v; try reflexivity. simpl.
  destruct (object_title_of d) eqn:E; try reflexivity.
  elim (Hv d eq_refl s E).
Qed.

(** ** [construct_specimen_id] *)

(** X4.  A row that lacks one of the three columns has no identifier. *)
Theorem construct_specimen_id_missing_column (r : row) (key : string) :
  In key ["institution_code"; "collection_code"; "catalog_number"] ->
  ~ In key (map fst r) ->
  construct_specimen_id r = None.
Proof.
  intros Hkey Habs.
  assert (Hget : forall d, row_get r key d = d).
  { intros d. unfold row_get. induction r as [|[k v] r IH]; simpl;
      [reflexivity|].
    destruct (String.eqb_spec k key) as [->|_];
      [elim Habs; left; reflexivity|].
    apply IH. intros H. apply Habs. right. exact H. }
  assert (Ht : unusable (trimmed r key) = true).
  { unfold trimmed. rewrite Hget. reflexivity. }
  rewrite construct_specimen_id_unfold.
  destruct Hkey as [<-|[<-|[<-|[]]]]; rewrite Ht, ?orb_true_r; reflexivity.
Qed.

Lemma lstrip_spaces (p s : string) :
  has_nonspace p = false -> lstrip (p +:+ s) = lstrip s.
Proof.
  induction p as [|c p IH]; simpl; [reflexivity|].
  destruct (is_space c); simpl; [exact IH | discriminate].
Qed.

Lemma rstrip_all_spaces (q : string) :
  has_nonspace q = false -> rstrip q = "".
Proof.
  induction q as [|c q IH]; simpl; [reflexivity|].
  destruct (is_space c); simpl; [|discriminate].
  intros H. rewrite (IH H). reflexivity.
Qed.

Lemma rstrip_spaces (s q : string) :
  has_nonspace q = false -> rstrip (s +:+ q) = rstrip s.
Proof.
  intros Hq. induction s as [|c s IH]; simpl.
  - apply rstrip_all_spaces. exact Hq.
  - rewrite IH. reflexivity.
Qed.

Lemma lstrip_app_nonspace (s q : string) :
  has_nonspace s = true -> lstrip (s +:+ q) = lstrip s +:+ q.
Proof.
  induction s as [|c s IH]; simpl; [discriminate|].
  destruct (is_space c); simpl; [exact IH | reflexivity].
Qed.

Lemma lstrip_all_spaces (s : string) :
  has_nonspace s = false -> lstrip s = "".
Proof.
  induction s as [|c s IH]; simpl; [reflexivity|].
  destruct (is_space c); simpl; [exact IH | discriminate].
Qed.

(** White space around a text does not survive [strip]. *)
Lemma strip_padding (p s q : string) :
  has_nonspace p = false -> has_nonspace q = false ->
  strip (p +:+ s +:+ q) = strip s.
Proof.
  intros Hp Hq. unfold strip. rewrite (lstrip_spaces _ _ Hp).
  destruct (has_nonspace s) eqn:Hs.
  - rewrite (lstrip_app_nonspace _ _ Hs). apply rstrip_spaces. exact Hq.
  - rewrite (lstrip_all_spaces s Hs).
    rewrite lstrip_all_spaces.
    + reflexivity.
    + rewrite has_nonspace_app, Hs, Hq. reflexivity.
Qed.

(** X5.  White space before and after the text of the three cells does not
    change the identifier. *)
Theorem construct_specimen_id_padding (i c k p1 q1 p2 q2 p3 q3 : string) :
  has_nonspace (p1 +:+ q1 +:+ p2 +:+ q2 +:+ p3 +:+ q3) = false ->
  construct_specimen_id
    (id_row (VStr (p1 +:+ i +:+ q1)) (VStr (p2 +:+ c +:+ q2))
       (VStr (p3 +:+ k +:+ q3)))
  = construct_specimen_id (id_row (VStr i) (VStr c) (VStr k)).
Proof.
  rewrite !has_nonspace_app, !orb_false_iff.
  intros (H1 & H2 & H3 & H4 & H5 & H6).
  rewrite !construct_specimen_id_unfold. unfold trimmed, id_row, row_get.
  simpl dict_get. simpl py_str.
  rewrite !strip_padding by assumption. reflexivity.
Qed.

Lemma append_colon_inj (a a' b b' : string) :
  contains_char ":" a = false -> contains_char ":" a' = false ->
  a +:+ ":" +:+ b = a' +:+ ":" +:+ b' -> a = a' /\ b = b'.
Proof.
  revert a'.
  induction a as [|x a IH]; intros [|x' a'];
    cbn [contains_char String.append].
  - intros _ _ H. injection H as H. auto.
  - destruct (Ascii.eqb_spec ":" x') as [<-|Hx]; [discriminate|].
    intros _ _ H. injection H as H _. elim Hx. exact H.
  - destruct (Ascii.eqb_spec ":" x) as [<-|Hx]; [discriminate|].
    intros _ _ H. injection H as H _. elim Hx. symmetry. exact H.
  - destruct (Ascii.eqb_spec ":" x); [discriminate|].
    destruct (Ascii.eqb_spec ":" x'); [discriminate|]. cbn [orb].
    intros Ha Ha' H. injection H as Hx H. subst x'.
    destruct (IH a' Ha Ha' H) as [Ea Eb]. subst. auto.
Qed.

(** X6.  Two rows with the same identifier have the same three trimmed
    components, as long as institution and collection hold no colon. *)
Theorem construct_specimen_id_unambiguous (r1 r2 : row) (id : string) :
  construct_specimen_id r1 = Some id -> construct_specimen_id r2 = Some id ->
  contains_char ":" (trimmed r1 "institution_code") = false ->
  contains_char ":" (trimmed r1 "collection_code") = false ->
  contains_char ":" (trimmed r2 "institution_code") = false ->
  contains_char ":" (trimmed r2 "collection_code") = false ->
  trimmed r1 "institution_code" = trimmed r2 "institution_code"
  /\ trimmed r1 "collection_code" = trimmed r2 "collection_code"
  /\ trimmed r1 "catalog_number" = trimmed r2 "catalog_number".
Proof.
  rewrite !construct_specimen_id_unfold.
  destruct (_ || _); [discriminate|]. destruct (_ || _); [discriminate|].
  intros H1 H2. rewrite <- H2 in H1. injection H1 as H.
  intros Hi1 Hc1 Hi2 Hc2.
  apply append_colon_inj in H as [Hi H]; [|assumption|assumption].
  apply append_colon_inj in H as [Hc Hk]; [|assumption|assumption].
  auto.
Qed.

(** ** [extract_voxel_spacing] *)

Lemma convert_if_set_none (v v' : value) :
  convert_if_set v = Ok v' -> is_none v' = is_none v.
Proof.
  unfold convert_if_set. destruct (truthy v) eqn:Ht.
  - destruct (py_float v); simpl; [|discriminate].
    intros H. injection H as <-. destruct v; try reflexivity. discriminate Ht.
  - intros H. injection H as <-. reflexivity.
Qed.

(** X7.  An axis comes out as [None] exactly when it went in as [None] (a
    key that is absent, a null, an empty list): whether the three spacings
    count as known does not depend on what the conversions do. *)
Theorem extract_voxel_spacing_none (media_item : dict) :
  map is_none
    [fst (fst (extract_voxel_spacing media_item));
     snd (fst (extract_voxel_spacing media_item));
     snd (extract_voxel_spacing media_item)]
  = map is_none
      [fst (fst (raw_spacing media_item)); snd (fst (raw_spacing media_item));
       snd (raw_spacing media_item)]
  /\ has_full_spacing media_item
     = all_not_none
         [fst (fst (raw_spacing media_item)); snd (fst (raw_spacing media_item));
          snd (raw_spacing media_item)].
Proof.
  unfold has_full_spacing, extract_voxel_spacing, raw_spacing, all_not_none,
    is_not_none.
  set (x := get_first_value _). set (y := get_first_value _).
  set (z := get_first_value _).
  destruct (convert_if_set x) as [x'|] eqn:Hx; [|split; reflexivity].
  apply convert_if_set_none in Hx.
  destruct (convert_if_set y) as [y'|] eqn:Hy;
    [|simpl; rewrite Hx; split; reflexivity].
  apply convert_if_set_none in Hy.
  destruct (convert_if_set z) as [z'|] eqn:Hz;
    [|simpl; rewrite Hx, Hy; split; reflexivity].
  apply convert_if_set_none in Hz.
  simpl. rewrite Hx, Hy, Hz. split; reflexivity.
Qed.

(** ** [compare_voxel_spacing] *)

Lemma within_refl (a : float) : within a a default_tolerance = finite a.
Proof.
  unfold within, finite. rewrite leb_spec, abs_spec, sub_spec.
  destruct (Prim2SF a) as [[]|[]| |s m e]; try reflexivity.
  unfold SF64sub, SFsub.
  replace (cond_Zopp s _ - cond_Zopp s _) with 0 by lia.
  reflexivity.
Qed.

(** X8.  A triple of floats matches itself exactly when its three values are
    finite: a NaN or an infinity does not even match itself. *)
Theorem compare_reflexive (a : triple) :
  compare a a default_tolerance
  = finite (fst (fst a)) && finite (snd (fst a)) && finite (snd a).
Proof.
  destruct a as [[a1 a2] a3]. unfold compare.
  rewrite compare_floats, !within_refl. reflexivity.
Qed.

Lemma within_nan_l (c a t : float) :
  Prim2SF c = S754_nan -> within c a t = false.
Proof.
  intros H. unfold within. rewrite leb_spec, abs_spec, sub_spec, H.
  reflexivity.
Qed.

Lemma axis_match_nan (c : float) (a : value) (t : float) :
  Prim2SF c = S754_nan ->
  axis_match c a t = Ok false \/ exists e, axis_match c a t = Raise e.
Proof.
  intros H. unfold axis_match.
  destruct (float_sub c a) as [d|e] eqn:Hd; simpl; [|eauto].
  left. f_equal.
  assert (Hn : Prim2SF d = S754_nan).
  { destruct a; simpl in Hd; try discriminate.
    - injection Hd as <-. rewrite sub_spec, H. reflexivity.
    - destruct (float_of_Z n); simpl in Hd; [|discriminate].
      injection Hd as <-. rewrite sub_spec, H. reflexivity.
    - injection Hd as <-. rewrite sub_spec, H. reflexivity. }
  rewrite leb_spec, abs_spec, Hn. reflexivity.
Qed.

(** X9.  A local value that is a NaN, which is what an empty cell of the
    table is read as, never compares equal, whatever the other five values
    are. *)
Theorem compare_voxel_spacing_nan (cx cy cz ax ay az : value) (t : float) :
  is_nan_float cx || is_nan_float cy || is_nan_float cz = true ->
  compare_voxel_spacing cx cy cz ax ay az t = false.
Proof.
  intros H. unfold compare_voxel_spacing, compare_body.
  destruct (csv_float cx) as [[fx|]|] eqn:Hx;
    destruct (csv_float cy) as [[fy|]|] eqn:Hy;
    destruct (csv_float cz) as [[fz|]|] eqn:Hz; simpl; try reflexivity.
  destruct (is_none ax || (is_none ay || (is_none az || false)));
    [reflexivity|].
  assert (Hnan : forall v f, is_nan_float v = true ->
                   csv_float v = Ok (Some f) -> Prim2SF f = S754_nan).
  { intros v f Hv Hf. destruct v; try discriminate Hv.
    rewrite csv_float_float in Hf. injection Hf as <-. simpl in Hv.
    destruct (Prim2SF f0); try discriminate Hv. reflexivity. }
  apply orb_true_iff in H as [H|H]; [apply orb_true_iff in H as [H|H]|].
  - destruct (axis_match_nan fx ax t (Hnan _ _ H Hx)) as [->|[e ->]];
      [simpl|reflexivity].
    destruct (axis_match fy ay t); simpl; [|reflexivity].
    destruct (axis_match fz az t); reflexivity.
  - destruct (axis_match fx ax t) as [bx|]; simpl; [|reflexivity].
    destruct (axis_match_nan fy ay t (Hnan _ _ H Hy)) as [->|[e ->]];
      [simpl|reflexivity].
    destruct (axis_match fz az t); simpl;
      [rewrite andb_false_r; reflexivity|reflexivity].
  - destruct (axis_match fx ax t) as [bx|]; simpl; [|reflexivity].
    destruct (axis_match fy ay t) as [by'|]; simpl; [|reflexivity].
    destruct (axis_match_nan fz az t (Hnan _ _ H Hz)) as [->|[e ->]];
      [simpl; apply andb_false_r|reflexivity].
Qed.

(** ** Match selection: the verified branch *)

Lemma find_best_match_first (cx cy cz : value) (pre post : list dict)
    (c : dict) :
  Forall (fun i => verifies cx cy cz i = false) pre ->
  verifies cx cy cz c = true ->
  find_best_match cx cy cz (pre ++ c :: post)
  = Some (c, {| best := scan_of c; match_status := Verified |}).
Proof.
  intros Hpre Hc. induction Hpre as [|i pre Hi _ IH];
    cbn [find_best_match app].
  - unfold verifies in Hc. unfold scan_of.
    destruct (extract_voxel_spacing c) as [[ax ay] az]. rewrite Hc.
    reflexivity.
  - unfold verifies in Hi. destruct (extract_voxel_spacing i) as [[ax ay] az].
    rewrite Hi. exact IH.
Qed.

Lemma find_best_match_some (cx cy cz : value) (items : list dict) (c : dict)
    (info : match_info) :
  find_best_match cx cy cz items = Some (c, info) ->
  In c items /\ verifies cx cy cz c = true
  /\ info = {| best := scan_of c; match_status := Verified |}.
Proof.
  induction items as [|i items IH]; cbn [find_best_match]; [discriminate|].
  unfold verifies at 1, scan_of at 1.
  destruct (extract_voxel_spacing i) as [[ax ay] az] eqn:He.
  destruct (all_not_none _ && _) eqn:Hv.
  - intros H. injection H as <- <-. split; [left; reflexivity|].
    unfold verifies, scan_of. rewrite He, Hv. auto.
  - intros H. destruct (IH H) as (Hin & Hver & Hinfo).
    split; [right; exact Hin | auto].
Qed.

(** A record that verifies has fields: it is not the empty dictionary. *)
Lemma verifies_truthy (cx cy cz : value) (c : dict) :
  verifies cx cy cz c = true -> truthy (VDict c) = true.
Proof. destruct c; [discriminate | reflexivity]. Qed.

(** X10.  The first candidate whose spacing compares equal to the row's
    decides the outcome, Yes with its id and spacing, whatever the
    candidates after it are. *)
Theorem verified_bound_to_first_match (cx cy cz : value)
    (pre post : list dict) (c : dict) :
  Forall (fun i => verifies cx cy cz i = false) pre ->
  verifies cx cy cz c = true ->
  select_match_info cx cy cz (pre ++ c :: post)
  = Ok (Some {| best := scan_of c; match_status := Verified |})
  /\ found_status {| best := scan_of c; match_status := Verified |} = "Yes".
Proof.
  intros Hpre Hc. split; [|reflexivity]. unfold select_match_info.
  rewrite (find_best_match_first _ _ _ _ _ _ Hpre Hc). simpl option_map.
  unfold no_best_match. rewrite (verifies_truthy _ _ _ _ Hc). reflexivity.
Qed.

Lemma compare_true_inv (cx cy cz ax ay az : value) (t : float) :
  compare_voxel_spacing cx cy cz ax ay az t = true ->
  exists fx fy fz,
    csv_float cx = Ok (Some fx) /\ csv_float cy = Ok (Some fy)
    /\ csv_float cz = Ok (Some fz)
    /\ axis_match fx ax t = Ok true /\ axis_match fy ay t = Ok true
    /\ axis_match fz az t = Ok true.
Proof.
  unfold compare_voxel_spacing, compare_body.
  destruct (csv_float cx) as [[fx|]|] eqn:Hx;
    destruct (csv_float cy) as [[fy|]|] eqn:Hy;
    destruct (csv_float cz) as [[fz|]|] eqn:Hz; simpl; try discriminate.
  destruct (is_none ax || (is_none ay || (is_none az || false)));
    [discriminate|].
  destruct (axis_match fx ax t) as [[]|] eqn:Mx; simpl; try discriminate;
    destruct (axis_match fy ay t) as [[]|] eqn:My; simpl; try discriminate;
    destruct (axis_match fz az t) as [[]|] eqn:Mz; simpl; try discriminate.
  intros _. exists fx, fy, fz. repeat split; assumption.
Qed.

Lemma axis_match_true_inv (f : float) (a : value) (t : float) :
  axis_match f a t = Ok true ->
  non_numeric a = false /\ is_none a = false
  /\ exists d, float_sub f a = Ok d
               /\ PrimFloat.leb (PrimFloat.abs d) t = true.
Proof.
  unfold axis_match. destruct (float_sub f a) as [d|] eqn:Hd; simpl;
    [|discriminate].
  intros H. injection H as H.
  destruct a; simpl in Hd; try discriminate; eauto.
Qed.

Lemma found_status_yes (info : match_info) :
  found_status info = "Yes" -> match_status info = Verified.
Proof.
  unfold found_status. destruct (match_status info); simpl;
    [reflexivity| |]; destruct (is_not_none _); discriminate.
Qed.

(** X11.  An outcome Yes is bound to one of the candidates, and says what it
    seems to say: the three local values are present and convert to floats,
    the three spacings of the candidate are numbers, and on each axis the
    difference is within the default tolerance. *)
Theorem verified_is_sound (cx cy cz : value) (items : list dict)
    (info : match_info) :
  select_match_info cx cy cz items = Ok (Some info) ->
  found_status info = "Yes" ->
  exists c fx fy fz,
    In c items /\ best info = scan_of c
    /\ (present cx /\ py_float cx = Ok fx)
    /\ (present cy /\ py_float cy = Ok fy)
    /\ (present cz /\ py_float cz = Ok fz)
    /\ (exists d, float_sub fx (api_x (best info)) = Ok d
                  /\ PrimFloat.leb (PrimFloat.abs d) default_tolerance = true)
    /\ (exists d, float_sub fy (api_y (best info)) = Ok d
                  /\ PrimFloat.leb (PrimFloat.abs d) default_tolerance = true)
    /\ (exists d, float_sub fz (api_z (best info)) = Ok d
                  /\ PrimFloat.leb (PrimFloat.abs d) default_tolerance = true).
Proof.
  intros Hs Hy. apply found_status_yes in Hy. revert Hs.
  unfold select_match_info.
  destruct (find_best_match cx cy cz items) as [[c info']|] eqn:Hf.
  - simpl option_map.
    destruct (find_best_match_some _ _ _ _ _ _ Hf) as (Hin & Hv & ->).
    unfold no_best_match. rewrite (verifies_truthy _ _ _ _ Hv). simpl.
    intros H. injection H as <-.
    unfold verifies in Hv. unfold scan_of.
    destruct (extract_voxel_spacing c) as [[ax ay] az] eqn:He.
    apply andb_true_iff in Hv as [_ Hc].
    apply compare_true_inv in Hc
      as (fx & fy & fz & Hx & Hy' & Hz & Mx & My & Mz).
    apply csv_float_spec in Hx, Hy', Hz.
    apply axis_match_true_inv in Mx as (_ & _ & Dx).
    apply axis_match_true_inv in My as (_ & _ & Dy).
    apply axis_match_true_inv in Mz as (_ & _ & Dz).
    exists c, fx, fy, fz. simpl. unfold scan_of. rewrite He.
    exact (conj Hin (conj eq_refl (conj Hx (conj Hy' (conj Hz
             (conj Dx (conj Dy Dz))))))).
  - simpl. destruct (available_scans items).
    + destruct (first_item_id items); simpl; intros H; [|discriminate].
      injection H as <-. discriminate Hy.
    + intros H. injection H as <-. discriminate Hy.
Qed.

(** ** Cells of a row *)

Lemma row_get_set_eq (r : row) (k : string) (v d : value) :
  row_get (row_set r k v) k d = v.
Proof.
  unfold row_get. induction r as [|[k' x] r IH]; simpl.
  - rewrite String.eqb_refl. reflexivity.
  - destruct (String.eqb k' k) eqn:E; simpl; rewrite E; [reflexivity|exact IH].
Qed.

Lemma row_get_set_ne (r : row) (k k' : string) (v d : value) :
  k <> k' -> row_get (row_set r k v) k' d = row_get r k' d.
Proof.
  intros Hne. unfold row_get. induction r as [|[k0 x] r IH]; simpl.
  - destruct (String.eqb_spec k k'); [contradiction|reflexivity].
  - destruct (String.eqb_spec k0 k) as [->|_]; simpl.
    + destruct (String.eqb_spec k k'); [contradiction|reflexivity].
    + destruct (String.eqb k0 k'); [reflexivity|exact IH].
Qed.

Lemma row_get_assign_notin (kvs : list (string * value)) (cells : row)
    (k : string) (d : value) :
  ~ In k (map fst kvs) -> row_get (assign cells kvs) k d = row_get cells k d.
Proof.
  revert cells. induction kvs as [|[k0 v0] kvs IH]; intros cells Hk;
    [reflexivity|].
  change (assign cells ((k0, v0) :: kvs)) with (assign (row_set cells k0 v0) kvs).
  rewrite IH by (intros H; apply Hk; right; exact H).
  apply row_get_set_ne. intros ->. apply Hk. left. reflexivity.
Qed.

(** A cell that has been assigned reads back as the value assigned. *)
Lemma row_get_assign_in (kvs : list (string * value)) (cells : row)
    (k : string) (v d : value) :
  List.NoDup (map fst kvs) -> In (k, v) kvs ->
  row_get (assign cells kvs) k d = v.
Proof.
  revert cells. induction kvs as [|[k0 v0] kvs IH]; intros cells Hnd Hin;
    [destruct Hin|].
  change (assign cells ((k0, v0) :: kvs)) with (assign (row_set cells k0 v0) kvs).
  inversion Hnd as [|? ? Hk Hnd']; subst.
  destruct Hin as [E|Hin].
  - injection E as -> ->. rewrite row_get_assign_notin by exact Hk.
    apply row_get_set_eq.
  - apply IH; assumption.
Qed.

Lemma output_row_cell (cells : row) (vals : list value) (i : nat)
    (c : string) (v d : value) :
  length vals = 7%nat -> result_columns !! i = Some c -> vals !! i = Some v ->
  row_get (output_row cells vals) c d = v.
Proof.
  intros Hlen Hc Hv. unfold output_row. apply row_get_assign_in.
  - do 8 (destruct vals as [|? vals]; try discriminate Hlen).
    apply NoDup_result_columns.
  - do 8 (destruct vals as [|? vals]; try discriminate Hlen).
    do 7 (destruct i as [|i];
          [injection Hc as <-; injection Hv as <-; simpl; auto 10|]).
    discriminate Hc.
Qed.

(** ** Match selection: the shape of what is selected *)

Lemma available_scans_shape (items : list dict) :
  Forall (fun s => all_known s = true \/ all_absent s = true)
    (available_scans items).
Proof.
  induction items as [|i items IH]; cbn [available_scans]; [constructor|].
  destruct (extract_voxel_spacing i) as [[ax ay] az].
  destruct (all_not_none [ax; ay; az]) eqn:E.
  - constructor; [left; exact E | exact IH].
  - destruct (truthy (item_media_id i)); [|exact IH].
    constructor; [right; reflexivity | exact IH].
Qed.

Lemma select_match_info_shape (cx cy cz : value) (items : list dict)
    (r : option match_info) :
  select_match_info cx cy cz items = Ok r ->
  exists info,
    r = Some info
    /\ (all_known (best info) = true \/ all_absent (best info) = true)
    /\ (match_status info = Verified -> all_known (best info) = true)
    /\ (match_status info = FoundButNoVoxelData ->
        all_absent (best info) = true).
Proof.
  unfold select_match_info.
  destruct (find_best_match cx cy cz items) as [[c info']|] eqn:Hf.
  - simpl option_map.
    destruct (find_best_match_some _ _ _ _ _ _ Hf) as (Hin & Hv & ->).
    unfold no_best_match. rewrite (verifies_truthy _ _ _ _ Hv). simpl.
    intros H. injection H as <-. eexists. split; [reflexivity|].
    assert (Hk : all_known (scan_of c) = true).
    { unfold verifies in Hv. unfold all_known, scan_of.
      destruct (extract_voxel_spacing c) as [[ax ay] az]. simpl.
      apply andb_true_iff in Hv as [Hv _]. unfold all_not_none in Hv.
      simpl in Hv. destruct (is_not_none ax), (is_not_none ay),
        (is_not_none az); try discriminate Hv; reflexivity. }
    simpl. split; [left; exact Hk|]. split; [intros _; exact Hk|discriminate].
  - simpl. pose proof (available_scans_shape items) as Hs.
    destruct (available_scans items) as [|first_scan rest].
    + destruct (first_item_id items); simpl; intros H; [|discriminate].
      injection H as <-. eexists. split; [reflexivity|]. simpl.
      split; [right; reflexivity|]. split; [discriminate|reflexivity].
    + intros H. injection H as <-. eexists. split; [reflexivity|]. simpl.
      inversion Hs as [|? ? H1 _]; subst.
      split; [exact H1|]. split; discriminate.
Qed.


(** ** The row loop: what each turn writes *)

Section RowOutcomes.

Variable search : Z -> string -> list dict.

(** A turn of the loop that completes went one of three ways. *)
Lemma process_row_cases (st st' : state) (row : ref) :
  (row < length (objects st))%nat ->
  process_row search st row = Ok st' ->
  exists (vals : list value) (dp dm dv : Z),
    outcome search (processed st) (deref (objects st) row) vals dp dm dv
    /\ objects st' = objects st ++ [output_row (deref (objects st) row) vals]
    /\ results st' = results st ++ [length (objects st)]
    /\ processed st' = processed st + dp
    /\ matched st' = matched st + dm
    /\ verified st' = verified st + dv.
Proof.
  intros Hrow H. set (cells := deref (objects st) row).
  destruct (construct_specimen_id cells) as [sid|] eqn:Hid.
  - destruct (search (processed st) sid) as [|item items] eqn:Hs.
    + rewrite (process_row_not_found search st row sid Hrow Hid Hs) in H.
      injection H as <-. exists (not_found_values sid), 1, 0, 0. simpl.
      split; [apply NotFound; assumption|]. repeat split; lia.
    + destruct (select_for cells (item :: items)) as [r|e] eqn:Hsel.
      * destruct (select_match_info_shape _ _ _ _ _ Hsel) as (info & -> & _).
        rewrite (process_row_found search st row sid item items info
                   Hrow Hid Hs Hsel) in H.
        injection H as <-.
        exists (found_values sid info), 1, 1,
          (if is_verified (match_status info) then 1 else 0). simpl.
        split.
        { apply Found; [exact Hid| |rewrite Hs; exact Hsel].
          rewrite Hs. discriminate. }
        repeat split; try lia. destruct (is_verified _); lia.
      * exfalso. revert H. unfold process_row, copy.
        rewrite setitem_new, !deref_old by exact Hrow. fold cells.
        rewrite Hid. cbn [id_value].
        rewrite (construct_specimen_id_truthy _ _ Hid). simpl.
        rewrite Hs. unfold select_for in Hsel. rewrite Hsel. discriminate.
  - rewrite (process_row_no_identifier search st row Hrow Hid) in H.
    injection H as <-. exists no_identifier_values, 0, 0, 0. simpl.
    split; [apply NoIdentifier; assumption|]. repeat split; lia.
Qed.


(** The table of output rows after a turn: one more row. *)
Lemma process_row_table (st st' : state) (row : ref) :
  results_in_store st ->
  (row < length (objects st))%nat ->
  process_row search st row = Ok st' ->
  results_in_store st'
  /\ exists (vals : list value) (dp dm dv : Z),
       outcome search (processed st) (deref (objects st) row) vals dp dm dv
       /\ objects st' = objects st ++ [output_row (deref (objects st) row) vals]
       /\ output_table st'
          = output_table st ++ [output_row (deref (objects st) row) vals]
       /\ processed st' = processed st + dp
       /\ matched st' = matched st + dm
       /\ verified st' = verified st + dv.
Proof.
  intros Hwf Hrow H.
  destruct (process_row_cases st st' row Hrow H)
    as (vals & dp & dm & dv & Hout & Hobj & Hres & Hp & Hm & Hv).
  split.
  - unfold results_in_store. rewrite Hobj, Hres, length_app. simpl.
    apply Forall_app. split.
    + eapply Forall_impl; [exact Hwf|]. simpl. intros; lia.
    + constructor; [lia|constructor].
  - exists vals, dp, dm, dv. repeat split; try assumption.
    unfold output_table. rewrite Hres, Hobj, map_app. f_equal.
    + apply map_ext_in. intros r Hr. apply deref_old.
      unfold results_in_store in Hwf. rewrite List.Forall_forall in Hwf.
      apply Hwf. exact Hr.
    + simpl. unfold deref. rewrite list_lookup_middle by reflexivity.
      reflexivity.
Qed.

Lemma found_status_verified (info : match_info) :
  String.eqb (found_status info) "Yes" = is_verified (match_status info).
Proof.
  unfold found_status. destruct (is_verified _); [reflexivity|].
  destruct (is_not_none _); reflexivity.
Qed.

(** What a turn adds to the counters can be read off the output row. *)
Lemma outcome_counts (n : Z) (cells : row) (vals : list value) (dp dm dv : Z) :
  outcome search n cells vals dp dm dv ->
  dp = (if was_searched (output_row cells vals) then 1 else 0)
  /\ dm = (if was_found (output_row cells vals) then 1 else 0)
  /\ dv = (if was_verified (output_row cells vals) then 1 else 0).
Proof.
  unfold was_searched, was_found, was_verified, cell_is.
  destruct 1 as [Hid|sid Hid Hs|sid info Hid Hs Hsel].
  - rewrite (output_row_cell cells no_identifier_values 1
               "morphosource_status" (VStr "No Specimen ID"))
      by reflexivity.
    rewrite (output_row_cell cells no_identifier_values 3
               "match_status" (VStr "No")) by reflexivity.
    auto.
  - rewrite (output_row_cell cells (not_found_values sid) 1
               "morphosource_status" (VStr "Not Found")) by reflexivity.
    rewrite (output_row_cell cells (not_found_values sid) 3
               "match_status" (VStr "No")) by reflexivity.
    auto.
  - rewrite (output_row_cell cells (found_values sid info) 1
               "morphosource_status" (VStr "Found")) by reflexivity.
    rewrite (output_row_cell cells (found_values sid info) 3
               "match_status" (VStr (found_status info))) by reflexivity.
    rewrite found_status_verified. auto.
Qed.

Lemma count_rows_cons (p : row -> bool) (r : row) (t : list row) :
  count_rows p (r :: t) = (if p r then 1 else 0) + count_rows p t.
Proof.
  unfold count_rows. cbn [List.filter]. destruct (p r); simpl length; lia.
Qed.

Lemma output_of_old (h l : heap) (rs : list ref) (outs : list row) :
  Forall (fun r : ref => (r < length h)%nat) rs ->
  Forall2 (fun r out => output_of search (deref (h ++ l) r) out) rs outs ->
  Forall2 (fun r out => output_of search (deref h r) out) rs outs.
Proof.
  intros Hrs H. induction H as [|r out rs outs Hr _ IH]; [constructor|].
  inversion Hrs as [|? ? Hlt Hrs']; subst.
  constructor; [|exact (IH Hrs')].
  rewrite deref_old in Hr by exact Hlt. exact Hr.
Qed.

(** The table of output rows after the loop over some rows of the store:
    one row for each, in order, made of its cells by a turn; and the
    counters have counted these rows. *)
Lemma process_rows_table (rs : list ref) (st st' : state) :
  results_in_store st ->
  Forall (fun r : ref => (r < length (objects st))%nat) rs ->
  process_rows search st rs = Ok st' ->
  exists outs : list row,
    output_table st' = output_table st ++ outs
    /\ Forall2 (fun r out => output_of search (deref (objects st) r) out)
         rs outs
    /\ processed st' = processed st + count_rows was_searched outs
    /\ matched st' = matched st + count_rows was_found outs
    /\ verified st' = verified st + count_rows was_verified outs.
Proof.
  revert st. induction rs as [|r rest IH]; intros st Hwf Hrs; simpl.
  - intros H. injection H as <-. exists []. rewrite app_nil_r.
    unfold count_rows. simpl. repeat split; try lia. constructor.
  - inversion Hrs as [|? ? Hr Hrest]; subst.
    destruct (process_row search st r) as [st1|e] eqn:H1; simpl;
      [|discriminate].
    intros H.
    destruct (process_row_table st st1 r Hwf Hr H1)
      as (Hwf1 & vals & dp & dm & dv & Hout & Hobj & Htab & Hp & Hm & Hv).
    destruct (IH st1 Hwf1) as (outs & Ht & Hf & Hp' & Hm' & Hv'); [|exact H|].
    { rewrite Hobj, length_app. eapply Forall_impl; [exact Hrest|].
      simpl. intros; lia. }
    destruct (outcome_counts _ _ _ _ _ _ Hout) as (Ep & Em & Ev).
    exists (output_row (deref (objects st) r) vals :: outs).
    rewrite !count_rows_cons.
    split; [rewrite Ht, Htab, <- app_assoc; reflexivity|].
    split; [|lia].
    constructor.
    + exists (processed st), vals, dp, dm, dv. auto.
    + rewrite Hobj in Hf. exact (output_of_old _ _ _ _ Hrest Hf).
Qed.

End RowOutcomes.

(** ** The whole run *)

Lemma map_deref_seq (pre l : heap) :
  map (deref (pre ++ l)) (seq (length pre) (length l)) = l.
Proof.
  revert pre. induction l as [|x l IH]; intros pre; [reflexivity|].
  simpl. f_equal.
  - unfold deref. rewrite list_lookup_middle by reflexivity. reflexivity.
  - specialize (IH (pre ++ [x])). rewrite <- app_assoc, length_app in IH.
    simpl in IH. rewrite Nat.add_1_r in IH. exact IH.
Qed.

Lemma missing_columns_nil (df : table) :
  missing_columns df = []
  <-> forall c, In c required_columns -> In c (columns df).
Proof.
  unfold missing_columns. split.
  - intros H c Hc.
    destruct (existsb (String.eqb c) (columns df)) eqn:E.
    + apply existsb_exists in E as (x & Hx & Ex).
      apply String.eqb_eq in Ex. subst x. exact Hx.
    + assert (Hin : c ∈ filter
                (fun col => negb (existsb (String.eqb col) (columns df)))
                required_columns).
      { apply list_elem_of_filter. split; [rewrite E; exact I|].
        apply list_elem_of_In. exact Hc. }
      rewrite H in Hin. inversion Hin.
  - intros H.
    destruct (filter _ required_columns) as [|c l] eqn:E; [reflexivity|].
    assert (Hin : c ∈ filter
              (fun col => negb (existsb (String.eqb col) (columns df)))
              required_columns) by (rewrite E; left).
    apply list_elem_of_filter in Hin as [Hn Hc].
    apply list_elem_of_In, H in Hc.
    assert (Ex : existsb (String.eqb c) (columns df) = true).
    { apply existsb_exists. exists c. split; [exact Hc|apply String.eqb_refl]. }
    rewrite Ex in Hn. destruct Hn.
Qed.

Lemma print_summary_counts (total p m v : Z) (out : list report_line) :
  print_summary total p m v = Ok out ->
  exists rates,
    out = [TotalRows total; SpecimensSearched p; FoundInMorphoSource m;
           ExactMatches v] ++ rates.
Proof.
  unfold print_summary.
  destruct (0 <? p); [destruct (percentage m p); simpl; [|discriminate]|];
    (destruct (0 <? m);
     [destruct (percentage v m); simpl; [|discriminate]|]);
    simpl; intros H; injection H as <-; eexists; simpl; reflexivity.
Qed.

Section Run.

Variable search : Z -> string -> list dict.

Lemma process_csv_inv (df : table) (r : run) :
  process_csv search df = Ok (Some r) ->
  missing_columns df = []
  /\ exists st,
       process_rows search (initial_state df) (row_refs df) = Ok st
       /\ results_df r = output_table st
       /\ print_summary (Z.of_nat (length (rows df)))
            (processed st) (matched st) (verified st) = Ok (summary r).
Proof.
  unfold process_csv.
  destruct (missing_columns df); [|discriminate].
  destruct (process_rows search _ _) as [st|e]; simpl; [|discriminate].
  destruct (print_summary _ _ _ _) as [out|e] eqn:Hout; simpl;
    [|discriminate].
  intros H. injection H as <-. split; [reflexivity|].
  exists st. repeat split. exact Hout.
Qed.

Lemma run_table (df : table) (st : state) :
  process_rows search (initial_state df) (row_refs df) = Ok st ->
  Forall2 (output_of search) (rows df) (output_table st)
  /\ processed st = count_rows was_searched (output_table st)
  /\ matched st = count_rows was_found (output_table st)
  /\ verified st = count_rows was_verified (output_table st).
Proof.
  intros H.
  destruct (process_rows_table search (row_refs df) (initial_state df) st)
    as (outs & Ht & Hf & Hp & Hm & Hv).
  - constructor.
  - simpl. unfold row_refs. apply List.Forall_forall. intros r Hr.
    apply in_seq in Hr. lia.
  - exact H.
  - simpl in Ht, Hf, Hp, Hm, Hv. rewrite Ht. repeat split; try assumption.
    apply Forall2_fmap_l in Hf. unfold row_refs in Hf.
    pose proof (map_deref_seq [] (rows df)) as E. simpl in E.
    unfold fmap, list_fmap in Hf. 
    rewrite <- E at 1. exact Hf.
Qed.







(** X14.  The four counts of the summary are counts of rows of the output
    table: all its rows, those not marked No Specimen ID, those marked
    Found, and those with match status Yes. *)
Theorem summary_counts_rows (df : table) (r : run) :
  process_csv search df = Ok (Some r) ->
  exists rates,
    summary r =
      [TotalRows (Z.of_nat (length (results_df r)));
       SpecimensSearched (count_rows was_searched (results_df r));
       FoundInMorphoSource (count_rows was_found (results_df r));
       ExactMatches (count_rows was_verified (results_df r))] ++ rates.
Proof.
  intros H. destruct (process_csv_inv df r H) as (_ & st & Hrun & -> & Hsum).
  destruct (run_table df st Hrun) as (Hf & Hp & Hm & Hv).
  destruct (print_summary_counts _ _ _ _ _ Hsum) as [rates ->].
  exists rates. rewrite <- Hp, <- Hm, <- Hv.
  rewrite (Forall2_length _ _ _ Hf). reflexivity.
Qed.

(** X15.  The run gives [None] exactly when one of the six required columns
    is not in the header of the table; columns in excess and the order of
    the columns do not matter. *)
Theorem process_csv_none (df : table) :
  process_csv search df = Ok None
  <-> exists c, In c required_columns /\ ~ In c (columns df).
Proof.
  split.
  - intros H. destruct (missing_columns df) as [|c l] eqn:E.
    + unfold process_csv in H. rewrite E in H.
      destruct (process_rows search _ _); simpl in H; [|discriminate].
      destruct (print_summary _ _ _ _); discriminate.
    + exists c.
      assert (Hin : c ∈ missing_columns df) by (rewrite E; left).
      unfold missing_columns in Hin.
      apply list_elem_of_filter in Hin as [Hn Hc].
      split; [apply list_elem_of_In; exact Hc|].
      intros Hcol.
      assert (Ex : existsb (String.eqb c) (columns df) = true).
      { apply existsb_exists. exists c. split; [exact Hcol|].
        apply String.eqb_refl. }
      rewrite Ex in Hn. destruct Hn.
  - intros (c & Hc & Hn). unfold process_csv.
    destruct (missing_columns df) eqn:E; [|reflexivity].
    elim Hn. apply (proj1 (missing_columns_nil df) E). exact Hc.
Qed.

End Run.


Lemma process_csv_completes (search : Z -> string -> list dict) (df : table)
    (st : state) :
  missing_columns df = [] ->
  process_rows search (initial_state df) (row_refs df) = Ok st ->
  exists out,
    process_csv search df
    = Ok (Some {| results_df := output_table st; summary := out |}).
Proof.
  intros Hcols Hrun.
  pose proof (process_rows_counters search _ _ _ 0 Hrun) as Hinv.
  simpl in Hinv. specialize (Hinv ltac:(lia)).
  destruct (print_summary_spec (Z.of_nat (length (rows df)))
              (processed st) (matched st) (verified st))
    as (out & Hout & _); [lia | lia |].
  unfold process_csv. rewrite Hcols, Hrun. simpl. rewrite Hout. simpl. eauto.
Qed.

Section Completion.

Variable search : Z -> string -> list dict.

(** The catalogue never answers with records that all lack both an id and
    a full spacing. *)
Hypothesis answers_usable :
  forall n sid item items,
    search n sid = item :: items ->
    Exists (fun i => has_full_spacing i = true \/ has_id i = true)
      (item :: items).


End Completion.


(** ** Rows without identifier *)



(** ** The record bound to a row *)




(** ** [main] *)

Section MainProperties.

Variable search : Z -> string -> list dict.
Variable path_exists : string -> bool.
Variable read_csv : string -> option table.
Variable save_results : string -> list row -> bool.

(** X19.  The exit status is 0 or 1; and it is 0 exactly when the command
    has one argument, the file exists, the key is set and not empty, the
    table loads and has the six required columns, the loop over its rows
    completes and the output table gets written. *)
Theorem main_exit_status (argv : list string) (api_key : option string) :
  let status :=
    exit_status (main search path_exists read_csv save_results argv api_key) in
  (status = 0 \/ status = 1)
  /\ (status = 0
      <-> exists prog f key df st,
            argv = [prog; f] /\ path_exists f = true
            /\ api_key = Some key /\ key <> ""
            /\ read_csv f = Some df
            /\ (forall c, In c required_columns -> In c (columns df))
            /\ process_rows search (initial_state df) (row_refs df) = Ok st
            /\ save_results f (output_table st) = true).
Proof.
  simpl. split.
  - unfold main, process_csv_file.
    destruct argv as [|prog [|f [|]]]; auto.
    destruct (path_exists f); simpl; auto.
    destruct (no_api_key api_key); auto.
    destruct (read_csv f); simpl; auto.
    destruct (process_csv search t) as [[r|]|]; simpl; auto.
    destruct (save_results f (results_df r)); simpl; auto.
  - split.
    + unfold main, process_csv_file.
      destruct argv as [|prog [|f [|]]]; try discriminate.
      destruct (path_exists f) eqn:Hp; simpl; [|discriminate].
      destruct api_key as [key|]; simpl; [|discriminate].
      destruct (String.eqb_spec key "") as [|Hk]; [discriminate|].
      destruct (read_csv f) as [df|] eqn:Hr; simpl; [|discriminate].
      destruct (process_csv search df) as [[r|]|] eqn:Hrun; simpl;
        try discriminate.
      destruct (save_results f (results_df r)) eqn:Hs; simpl;
        [|discriminate].
      intros _. destruct (process_csv_inv search df r Hrun)
        as (Hcols & st & Hloop & E & _).
      exists prog, f, key, df, st. rewrite <- E.
      repeat split; auto. apply missing_columns_nil. exact Hcols.
    + intros (prog & f & key & df & st & -> & Hp & -> & Hk & Hr & Hcols
              & Hloop & Hs).
      apply missing_columns_nil in Hcols.
      destruct (process_csv_completes search df st Hcols Hloop) as [out Hrun].
      unfold main, process_csv_file. rewrite Hp. simpl.
      destruct (String.eqb_spec key ""); [contradiction|].
      rewrite Hr, Hrun. simpl. rewrite Hs. reflexivity.
Qed.

End MainProperties.

(** ** Instances *)

(** X1 (witness).  The sample answer: the record with the padded title in
    lower case is returned. *)
Lemma search_response_sound_witness :
  In item_lower_title
    (search_response true (Some sample_answer) "MVZ:Mammals:12345")
  /\ ((exists t, object_title_of item_lower_title = VStr t
                 /\ upper (strip t) = upper "MVZ:Mammals:12345")
      /\ true = true
      /\ exists response data l,
           Some sample_answer = Some response /\ status_code response = 200
           /\ json response = Some data
           /\ find_media_items data = Some (Some (VList l))
           /\ In (VDict item_lower_title) l).
Proof.
  assert (H : In item_lower_title
                (search_response true (Some sample_answer) "MVZ:Mammals:12345"))
    by (vm_compute; right; left; reflexivity).
  split; [exact H|].
  exact (search_response_sound true (Some sample_answer) "MVZ:Mammals:12345"
           item_lower_title H).
Defined.


(** X3 (witness).  An answer with an item that is a number: the record that
    matches is lost with it. *)
Lemma search_response_all_or_nothing_witness :
  In (VInt 7) [VDict item_match; VInt 7]
  /\ search_response true (Some broken_answer) "MVZ:Mammals:12345" = [].
Proof.
  assert (H : In (VInt 7) [VDict item_match; VInt 7])
    by (right; left; reflexivity).
  split; [exact H|].
  apply (search_response_all_or_nothing true broken_answer
           (VDict [("response",
                    VDict [("media", VList [VDict item_match; VInt 7])])])
           [VDict item_match; VInt 7] "MVZ:Mammals:12345" (VInt 7)).
  - reflexivity.
  - reflexivity.
  - exact H.
  - intros d E. discriminate E.
Defined.

(** X4 (witness).  A row without institution column. *)
Lemma construct_specimen_id_missing_column_witness :
  In "institution_code" ["institution_code"; "collection_code"; "catalog_number"]
  /\ construct_specimen_id
       [("collection_code", VStr "Mammals"); ("catalog_number", VInt 12345)]
     = None.
Proof.
  assert (H : In "institution_code"
                ["institution_code"; "collection_code"; "catalog_number"])
    by (left; reflexivity).
  split; [exact H|].
  apply (construct_specimen_id_missing_column
           [("collection_code", VStr "Mammals"); ("catalog_number", VInt 12345)]
           "institution_code" H).
  simpl. intros [E|[E|[]]]; discriminate E.
Defined.

(** X5 (witness).  Three padded cells. *)
Lemma construct_specimen_id_padding_witness :
  has_nonspace (" " +:+ "  " +:+ "" +:+ " " +:+ "   " +:+ "") = false
  /\ construct_specimen_id
       (id_row (VStr (" " +:+ "MVZ" +:+ "  ")) (VStr ("" +:+ "Mammals" +:+ " "))
          (VStr ("   " +:+ "12345" +:+ "")))
     = construct_specimen_id
         (id_row (VStr "MVZ") (VStr "Mammals") (VStr "12345")).
Proof.
  assert (H : has_nonspace (" " +:+ "  " +:+ "" +:+ " " +:+ "   " +:+ "")
              = false) by reflexivity.
  split; [exact H|].
  exact (construct_specimen_id_padding "MVZ" "Mammals" "12345"
           " " "  " "" " " "   " "" H).
Defined.

(** X6 (witness).  Two rows that differ in padding and in the type of the
    catalogue number. *)
Lemma construct_specimen_id_unambiguous_witness :
  construct_specimen_id (id_row (VStr " MVZ") (VStr "Mammals") (VInt 12345))
  = Some "MVZ:Mammals:12345"
  /\ construct_specimen_id
       (id_row (VStr "MVZ") (VStr "Mammals ") (VStr "12345"))
     = Some "MVZ:Mammals:12345"
  /\ trimmed (id_row (VStr " MVZ") (VStr "Mammals") (VInt 12345))
       "institution_code"
     = trimmed (id_row (VStr "MVZ") (VStr "Mammals ") (VStr "12345"))
         "institution_code"
  /\ trimmed (id_row (VStr " MVZ") (VStr "Mammals") (VInt 12345))
       "collection_code"
     = trimmed (id_row (VStr "MVZ") (VStr "Mammals ") (VStr "12345"))
         "collection_code"
  /\ trimmed (id_row (VStr " MVZ") (VStr "Mammals") (VInt 12345))
       "catalog_number"
     = trimmed (id_row (VStr "MVZ") (VStr "Mammals ") (VStr "12345"))
         "catalog_number".
Proof.
  assert (H1 : construct_specimen_id
                 (id_row (VStr " MVZ") (VStr "Mammals") (VInt 12345))
               = Some "MVZ:Mammals:12345") by (vm_compute; reflexivity).
  assert (H2 : construct_specimen_id
                 (id_row (VStr "MVZ") (VStr "Mammals ") (VStr "12345"))
               = Some "MVZ:Mammals:12345") by (vm_compute; reflexivity).
  split; [exact H1|]. split; [exact H2|].
  apply (construct_specimen_id_unambiguous _ _ _ H1 H2);
    vm_compute; reflexivity.
Defined.

(** X9 (witness).  A row whose first spacing is empty. *)
Lemma compare_voxel_spacing_nan_witness :
  is_nan_float (VFloat nan) || is_nan_float csv || is_nan_float csv = true
  /\ compare_voxel_spacing (VFloat nan) csv csv (VFloat nan) csv csv
       default_tolerance = false.
Proof.
  assert (H : is_nan_float (VFloat nan) || is_nan_float csv || is_nan_float csv
              = true) by (vm_compute; reflexivity).
  split; [exact H|].
  exact (compare_voxel_spacing_nan (VFloat nan) csv csv (VFloat nan) csv csv
           default_tolerance H).
Defined.

(** X10 (witness).  The match between a record with another spacing and one
    with none. *)
Lemma verified_bound_to_first_match_witness :
  verifies csv csv csv item_match = true
  /\ select_match_info csv csv csv ([item_full] ++ item_match :: [item_plain])
     = Ok (Some {| best := scan_of item_match; match_status := Verified |})
  /\ found_status {| best := scan_of item_match; match_status := Verified |}
     = "Yes".
Proof.
  assert (H : verifies csv csv csv item_match = true)
    by (vm_compute; reflexivity).
  split; [exact H|].
  apply (verified_bound_to_first_match csv csv csv [item_full] [item_plain]
           item_match); [|exact H].
  repeat constructor.
Defined.

(** X11 (witness).  The selection of [item_match]. *)
Lemma verified_is_sound_witness :
  select_match_info csv csv csv [item_full; item_match] = Ok (Some info_match)
  /\ found_status info_match = "Yes"
  /\ exists c fx fy fz,
       In c [item_full; item_match] /\ best info_match = scan_of c
       /\ (present csv /\ py_float csv = Ok fx)
       /\ (present csv /\ py_float csv = Ok fy)
       /\ (present csv /\ py_float csv = Ok fz)
       /\ (exists d, float_sub fx (api_x (best info_match)) = Ok d
                     /\ PrimFloat.leb (PrimFloat.abs d) default_tolerance = true)
       /\ (exists d, float_sub fy (api_y (best info_match)) = Ok d
                     /\ PrimFloat.leb (PrimFloat.abs d) default_tolerance = true)
       /\ (exists d, float_sub fz (api_z (best info_match)) = Ok d
                     /\ PrimFloat.leb (PrimFloat.abs d) default_tolerance = true).
Proof.
  assert (H1 : select_match_info csv csv csv [item_full; item_match]
               = Ok (Some info_match)) by (vm_compute; reflexivity).
  assert (H2 : found_status info_match = "Yes") by reflexivity.
  split; [exact H1|]. split; [exact H2|].
  exact (verified_is_sound csv csv csv [item_full; item_match] info_match
           H1 H2).
Defined.



(** X14 (witness).  The table of two rows, against an empty catalogue. *)
Lemma summary_counts_rows_witness :
  process_csv (catalog_of []) sample_table
  = Ok (Some (run_of (catalog_of []) sample_table))
  /\ exists rates,
       summary (run_of (catalog_of []) sample_table) =
         [TotalRows
            (Z.of_nat (length (results_df (run_of (catalog_of []) sample_table))));
          SpecimensSearched
            (count_rows was_searched
               (results_df (run_of (catalog_of []) sample_table)));
          FoundInMorphoSource
            (count_rows was_found
               (results_df (run_of (catalog_of []) sample_table)));
          ExactMatches
            (count_rows was_verified
               (results_df (run_of (catalog_of []) sample_table)))] ++ rates.
Proof.
  assert (H : process_csv (catalog_of []) sample_table
              = Ok (Some (run_of (catalog_of []) sample_table)))
    by (vm_compute; reflexivity).
  split; [exact H|].
  exact (summary_counts_rows (catalog_of []) sample_table _ H).
Defined.

(** X15 (witness).  A table without the column [catalog_number]. *)
Lemma process_csv_none_witness :
  process_csv (catalog_of [item_match]) short_table = Ok None
  <-> exists c, In c required_columns /\ ~ In c (columns short_table).
Proof.
  exact (process_csv_none (catalog_of [item_match]) short_table).
Defined.




(** X19 (witness).  A command with one argument, a file that exists and
    loads, and a key. *)
Lemma main_exit_status_witness :
  let status :=
    exit_status
      (main (catalog_of [item_match]) (fun _ => true)
         (fun _ => Some sample_table) (fun _ _ => true)
         ["morphocompare.py"; "specimens.csv"] (Some "key")) in
  (status = 0 \/ status = 1)
  /\ (status = 0
      <-> exists prog f key df st,
            ["morphocompare.py"; "specimens.csv"] = [prog; f]
            /\ (fun _ : string => true) f = true
            /\ Some "key" = Some key /\ key <> ""
            /\ (fun _ : string => Some sample_table) f = Some df
            /\ (forall c, In c required_columns -> In c (columns df))
            /\ process_rows (catalog_of [item_match]) (initial_state df)
                 (row_refs df) = Ok st
            /\ (fun (_ : string) (_ : list row) => true) f (output_table st)
               = true).
Proof.
  exact (main_exit_status (catalog_of [item_match]) (fun _ => true)
           (fun _ => Some sample_table) (fun _ _ => true)
           ["morphocompare.py"; "specimens.csv"] (Some "key")).
Defined.
